(** * PointText: anchor, rendering, bounds and hit-testing of point text

    A shallow embedding of [src/text/PointText.js] (paper.js) and the
    properties of its anchor accessor, multi-line renderer, the two bounds
    estimators and the hit tester.

    Numbers.  JavaScript numbers are modelled as exact rationals ([Q]):
    every arithmetic step of the source is kept, rounding is not modelled.
    Equalities between numbers are therefore stated with [==] ([Qeq]).

    Objects.  Items live in a heap ([gmap loc PointText]); a [LinkedPoint]
    keeps the location of its owner, as the JavaScript object keeps a
    reference.  The canvas context and the document are explicit states. *)

From Stdlib Require Import QArith Qabs Qround Qminmax Lqa Lia.
From Stdlib Require Import String List Bool.
From stdpp Require Import base option list gmap.
Import ListNotations.

Local Open Scope Q_scope.
Local Open Scope string_scope.

(** ** Numbers *)

Module Math.

(** [Math.max(a, b)] on two numbers. *)
Definition max (a b : Q) : Q := if Qle_bool a b then b else a.

End Math.

(** The number of elements of an array, as a number. *)
Definition num (n : nat) : Q := inject_Z (Z.of_nat n).

(** ** Geometry: points, rectangles, matrices *)

Module Point.
Record t := new { x : Q; y : Q }.

(** Modelled from the spec: [Point] is not among the sources; section 4.1
    has [setPoint] compute [delta = p - currentTranslation].
    [point.subtract(other)] is the difference by coordinates. *)
Definition subtract (p q : t) : t := new (x p - x q) (y p - y q).

(** [Point.read(arguments)]: the argument list already holds a point. *)
Definition read (p : t) : t := p.

Definition eq (p q : t) : Prop := x p == x q /\ y p == y q.
End Point.

Module Rectangle.
Record t := new { x : Q; y : Q; width : Q; height : Q }.
End Rectangle.

Module Matrix.
(** The affine transform [[a c tx; b d ty]]. *)
Record t := new { a : Q; b : Q; c : Q; d : Q; tx : Q; ty : Q }.

Definition identity : t := new 1 0 0 1 0 0.

(** Modelled from the spec: [Matrix] is not among the sources; section 3
    says that the translation component of the transform is the anchor
    point, and section 6 gives the transform [getTranslation() -> Point]. *)
Definition getTranslation (m : t) : Point.t := Point.new (tx m) (ty m).

(** Modelled from the spec: the transform collaborator is not among the
    sources; section 6 gives it [translateBy(delta)], and section 4.1 says
    that a relative translation of [delta] is applied to the node's
    transform without discarding the rotation and scale already present.
    The translation component moves by [delta]; the linear part stays. *)
Definition translateBy (delta : Point.t) (m : t) : t :=
  new (a m) (b m) (c m) (d m) (tx m + Point.x delta) (ty m + Point.y delta).

(** The canvas' [ctx.translate(x, y)]: a translation in the current
    (local) coordinate system, appended to the current transform. *)
Definition translate (dx dy : Q) (m : t) : t :=
  new (a m) (b m) (c m) (d m)
      (tx m + (a m * dx + c m * dy)) (ty m + (b m * dx + d m * dy)).

(** The linear part (rotation, scale, shear) of two transforms agrees. *)
Definition same_linear (m n : t) : Prop :=
  a m == a n /\ b m == b n /\ c m == c n /\ d m == d n.
End Matrix.

(** ** Style and the text item *)

Record Style := mkStyle {
  fontFamily : string;
  fontWeight : string;
  fontSize : Q;
  leading : Q;
  justification : string;
  fillColor : option string;
  strokeColor : option string;
  strokeWidth : Q
}.

Definition setStrokeWidth (w : Q) (s : Style) : Style :=
  mkStyle (fontFamily s) (fontWeight s) (fontSize s) (leading s)
          (justification s) (fillColor s) (strokeColor s) w.

Record PointText := mkPointText {
  _matrix : Matrix.t;
  _content : string;
  _lines : list string;
  _style : Style
}.

Definition setStyle (s : Style) (item : PointText) : PointText :=
  mkPointText (_matrix item) (_content item) (_lines item) s.

Definition setMatrix (m : Matrix.t) (item : PointText) : PointText :=
  mkPointText m (_content item) (_lines item) (_style item).

(** ** Collaborators

    The functions of the library that [PointText.js] calls and that are
    defined elsewhere: the style's derived accessors, the view's font
    metrics, the item's containment test.  Every theorem below holds for
    any implementation of them. *)

Class Collaborators := {
  (** [style.getFontStyle()] *)
  getFontStyle : Style -> string;
  (** [style.hasFill()], [style.hasStroke()] *)
  hasFill : Style -> bool;
  hasStroke : Style -> bool;
  (** [view.getTextWidth(fontStyle, lines)] *)
  getTextWidth : string -> list string -> Q;
  (** [item._contains(point)] *)
  _contains : PointText -> Point.t -> bool
}.

(** ** Metrics bounds estimator *)

Section Measured.
Context `{Collaborators}.

(** [PointText#_getMeasuredTextSize] *)
Definition _getMeasuredTextSize (this : PointText) : Rectangle.t :=
  let style := _style this in
  let lines := _lines this in
  let numLines := length lines in
  let justification := justification style in
  let leading := leading style in
  let width := getTextWidth (getFontStyle style) lines in
  let x := 0 in
  (* Adjust for different justifications. *)
  let x :=
    if negb (justification =? "left")%string
    then x - width / (if (justification =? "center")%string then 2 else 1)
    else x in
  Rectangle.new x
    (if (numLines =? 0)%nat then 0 else - (3 # 4) * leading)
    width (num numLines * leading).

End Measured.

(** ** Anchor accessor *)

Definition loc := nat.

Module LinkedPoint.
(** A point that remembers the object it was read from and the name of
    the setter to call when it changes. *)
Record t := new { _x : Q; _y : Q; _owner : loc; _setter : string }.

Definition toPoint (p : t) : Point.t := Point.new (_x p) (_y p).
End LinkedPoint.

(** Modelled from the spec: [Item#translate] is not among the sources;
    section 4.1 says that [setPoint] applies a relative translation of
    [delta] to the node's transform, mutating it in place. *)
Definition translate (delta : Point.t) (item : PointText) : PointText :=
  setMatrix (Matrix.translateBy delta (_matrix item)) item.

(** [PointText#getPoint]: a new [LinkedPoint] each time. *)
Definition getPoint (h : gmap loc PointText) (this : loc)
  : option LinkedPoint.t :=
  match h !! this with
  | Some item =>
      let point := Matrix.getTranslation (_matrix item) in
      Some (LinkedPoint.new (Point.x point) (Point.y point) this "setPoint")
  | None => None
  end.

(** [PointText#setPoint] *)
Definition setPoint (h : gmap loc PointText) (this : loc)
    (arguments : Point.t) : option (gmap loc PointText) :=
  match h !! this with
  | Some item =>
      let point := Point.read arguments in
      Some (<[this :=
               translate
                 (Point.subtract point (Matrix.getTranslation (_matrix item)))
                 item]> h)
  | None => None
  end.

(** [owner[setter](point)]: the call a linked point makes when it changes.
    [getPoint] names ['setPoint']; a name that is no method of the item is
    a failed call. *)
Definition call_setter (h : gmap loc PointText) (owner : loc)
    (setter : string) (p : Point.t) : option (gmap loc PointText) :=
  if (setter =? "setPoint")%string then setPoint h owner p else None.

(** Modelled from the spec: [LinkedPoint] is not among the sources;
    section 4.1 says that the value returned by [getPoint], when
    subsequently set, routes back through [setPoint] (a linked value).
    Assigning a coordinate stores it in the point and calls the owner's
    setter with the point. *)
Definition LinkedPoint_setX (p : LinkedPoint.t) (v : Q)
    (h : gmap loc PointText) : option (LinkedPoint.t * gmap loc PointText) :=
  let p' := LinkedPoint.new v (LinkedPoint._y p)
              (LinkedPoint._owner p) (LinkedPoint._setter p) in
  match call_setter h (LinkedPoint._owner p') (LinkedPoint._setter p')
          (LinkedPoint.toPoint p') with
  | Some h' => Some (p', h')
  | None => None
  end.

(** Modelled from the spec: [LinkedPoint] is not among the sources; the
    same write-through (section 4.1) for the other coordinate. *)
Definition LinkedPoint_setY (p : LinkedPoint.t) (v : Q)
    (h : gmap loc PointText) : option (LinkedPoint.t * gmap loc PointText) :=
  let p' := LinkedPoint.new (LinkedPoint._x p) v
              (LinkedPoint._owner p) (LinkedPoint._setter p) in
  match call_setter h (LinkedPoint._owner p') (LinkedPoint._setter p')
          (LinkedPoint.toPoint p') with
  | Some h' => Some (p', h')
  | None => None
  end.

(** ** Loops *)

(** [for (var i = from; i < l; i++) body(i)], threading the state; [l - from]
    iterations are enough fuel. *)
Fixpoint for_loop {S : Type} (fuel i l : nat) (body : nat -> S -> S) (s : S)
  : S :=
  match fuel with
  | O => s
  | Datatypes.S fuel' =>
      if (i <? l)%nat then for_loop fuel' (Datatypes.S i) l body (body i s)
      else s
  end.

(** [lines[i]] *)
Definition at_index (lines : list string) (i : nat) : string :=
  nth i lines "undefined".

(** ** Multi-line renderer *)

(** What the canvas context was asked to do; a paint call records the
    shadow colour in effect when it ran. *)
Inductive CanvasCall :=
| SetShadowColor (colour : string)
| FillText (text : string) (x y : Q) (shadow : string)
| StrokeText (text : string) (x y : Q) (shadow : string)
| Translate (dx dy : Q).

Record Context2D := mkContext {
  shadowColor : string;
  font : string;
  textAlign : string;
  transform : Matrix.t;
  calls : list CanvasCall
}.

Module ctx.
Definition set_shadowColor (colour : string) (c : Context2D) : Context2D :=
  mkContext colour (font c) (textAlign c) (transform c)
            (calls c ++ [SetShadowColor colour]).

Definition set_font (f : string) (c : Context2D) : Context2D :=
  mkContext (shadowColor c) f (textAlign c) (transform c) (calls c).

Definition set_textAlign (a : string) (c : Context2D) : Context2D :=
  mkContext (shadowColor c) (font c) a (transform c) (calls c).

Definition fillText (text : string) (x y : Q) (c : Context2D) : Context2D :=
  mkContext (shadowColor c) (font c) (textAlign c) (transform c)
            (calls c ++ [FillText text x y (shadowColor c)]).

Definition strokeText (text : string) (x y : Q) (c : Context2D)
  : Context2D :=
  mkContext (shadowColor c) (font c) (textAlign c) (transform c)
            (calls c ++ [StrokeText text x y (shadowColor c)]).

Definition translate (dx dy : Q) (c : Context2D) : Context2D :=
  mkContext (shadowColor c) (font c) (textAlign c)
            (Matrix.translate dx dy (transform c))
            (calls c ++ [Translate dx dy]).
End ctx.

Definition transparent : string := "rgba(0,0,0,0)".

Section Draw.
Context `{Collaborators}.
(** [item._setStyles(ctx, param, viewMatrix)], defined by [Item]. *)
Variable _setStyles : PointText -> Context2D -> Context2D.

(** The body of the loop over the lines in [_draw]. *)
Definition draw_line (lines : list string) (hasFill hasStroke : bool)
    (leading : Q) (shadowColor : string) (i : nat) (c : Context2D)
  : Context2D :=
  (* See Path._draw() for explanation about ctx.shadowColor *)
  let c := ctx.set_shadowColor shadowColor c in
  let line := at_index lines i in
  let c :=
    if hasFill
    then ctx.set_shadowColor transparent (ctx.fillText line 0 0 c)
    else c in
  let c := if hasStroke then ctx.strokeText line 0 0 c else c in
  ctx.translate 0 leading c.

(** [PointText#_draw] *)
Definition _draw (this : PointText) (c : Context2D) : Context2D :=
  if (_content this =? "")%string then c
  else
    let c := _setStyles this c in
    let lines := _lines this in
    let style := _style this in
    let hasFill := hasFill style in
    let hasStroke := hasStroke style in
    let leading := leading style in
    let shadowColor := shadowColor c in
    let c := ctx.set_font (getFontStyle style) c in
    let c := ctx.set_textAlign (justification style) c in
    let l := length lines in
    for_loop l 0 l (draw_line lines hasFill hasStroke leading shadowColor) c.

End Draw.

(** ** The document and the measurement host *)

Inductive Exception :=
| NotFoundError                 (* removeChild: the node is not a child *)
| HostError (message : string). (* raised by the browser's engine *)

Inductive Completion (A : Type) :=
| Normal (value : A)
| Throw (e : Exception).
Arguments Normal {A} value.
Arguments Throw {A} e.

Definition handle := nat.

(** The part of the document the estimator touches: the children of
    [document.body], and the next unused element handle. *)
Record Document := mkDocument {
  body : list handle;
  next_handle : handle
}.

(** Computations that read and change the document and may throw; the
    document survives a throw. *)
Definition DOM (A : Type) : Type := Document -> Completion A * Document.

Definition ret {A} (a : A) : DOM A := fun doc => (Normal a, doc).

Definition throw {A} (e : Exception) : DOM A := fun doc => (Throw e, doc).

Definition bind {A B} (m : DOM A) (k : A -> DOM B) : DOM B :=
  fun doc =>
    match m doc with
    | (Normal a, doc') => k a doc'
    | (Throw e, doc') => (Throw e, doc')
    end.

(** [try { block } finally { finalizer }]: the finalizer always runs; when
    it throws, its exception replaces the completion of the block. *)
Definition try_finally {A} (block : DOM A) (finalizer : DOM unit) : DOM A :=
  fun doc =>
    let '(completion, doc1) := block doc in
    match finalizer doc1 with
    | (Normal _, doc2) => (completion, doc2)
    | (Throw e, doc2) => (Throw e, doc2)
    end.

Declare Scope dom_scope.
Delimit Scope dom_scope with dom.
Notation "x <- m ;; k" := (bind m (fun x => k))
  (at level 100, m at next level, right associativity) : dom_scope.
Notation "m ;; k" := (bind m (fun _ => k))
  (at level 100, right associativity) : dom_scope.

(** [dy: i === 0 ? '0' : leading + 'px'] *)
Inductive Dy := DyZero | DyPx (leading : Q).

Record TSpan := mkTSpan {
  tspan_x : string;
  tspan_dy : Dy;
  textContent : string
}.

(** The [svg] element with its single [text] child. *)
Record Svg := mkSvg {
  version : string;
  xml_space : string;
  tspans : list TSpan
}.

(** The hidden [span] that hosts the markup while it is measured. *)
Record Span := mkSpan {
  span_handle : handle;
  visibility : string;
  whiteSpace : string;
  span_fontSize : Q;
  span_fontFamily : string;
  lineHeight : Q
}.

Module SVGRect.
Record t := new { x : Q; y : Q; width : Q; height : Q }.
End SVGRect.

(** The browser: each step of the measurement either succeeds or raises. *)
Class Browser := {
  (** [element.appendChild(svg)] *)
  span_appendChild : Span -> Svg -> option Exception;
  (** whether [document.body.appendChild(element)] is refused *)
  body_refuses : Span -> Svg -> option Exception;
  (** [svg.getBBox()] of the markup inside its host *)
  getBBox : Span -> Svg -> Completion SVGRect.t
}.

Definition raise_if (failure : option Exception) : DOM unit :=
  match failure with
  | Some e => throw e
  | None => ret tt
  end.

Definition lift {A} (c : Completion A) : DOM A := fun doc => (c, doc).

Definition remove_handle (e : handle) (l : list handle) : list handle :=
  List.filter (fun h => negb (h =? e)%nat) l.

(** [document.createElement(tag)]: a new element, not in the document. *)
Definition createElement : DOM handle :=
  fun doc => (Normal (next_handle doc),
              mkDocument (body doc) (Datatypes.S (next_handle doc))).

(** [document.body.appendChild(element)]: the element becomes the last child
    (leaving its former place, if it had one). *)
Definition body_appendChild (e : handle) : DOM unit :=
  fun doc => (Normal tt,
              mkDocument (remove_handle e (body doc) ++ [e]) (next_handle doc)).

(** [document.body.removeChild(element)] *)
Definition body_removeChild (e : handle) : DOM unit :=
  fun doc =>
    if existsb (fun h => (h =? e)%nat) (body doc)
    then (Normal tt, mkDocument (remove_handle e (body doc)) (next_handle doc))
    else (Throw NotFoundError, doc).

(** ** Exact bounds estimator *)

(** The body of the loop that adds one [tspan] per line. *)
Definition add_tspan (lines : list string) (leading : Q) (i : nat)
    (node : list TSpan) : list TSpan :=
  let tspanNode :=
    mkTSpan "0" (if (i =? 0)%nat then DyZero else DyPx leading)
            (at_index lines i) in
  node ++ [tspanNode].

(** The markup built from the lines (lines 136 to 150 of the source): an
    [svg] with one [text] child that preserves white space and holds one
    [tspan] per line. *)
Definition markup (this : PointText) : Svg :=
  let lines := _lines this in
  let numLines := length lines in
  let leading := leading (_style this) in
  let node := for_loop numLines 0 numLines (add_tspan lines leading) [] in
  mkSvg "1.1" "preserve" node.

(** The styles given to the hidden [span] (lines 153 to 158);
    [this.fontSize], [this.font] and [this.leading] read the style. *)
Definition host_span (h : handle) (this : PointText) : Span :=
  let style := _style this in
  mkSpan h "hidden" "pre" (fontSize style) (fontFamily style)
         (leading style / fontSize style).

(** [options] of [_getBounds] and [_hitTestSelf]. *)
Record Options := mkOptions {
  drawnTextBounds : bool;
  fill : bool;
  stroke : bool;
  hitUnfilledPaths : bool
}.

Section Drawn.
Context `{Collaborators} `{Browser}.

(** [PointText#_getDrawnTextSize] *)
Definition _getDrawnTextSize (this : PointText) : DOM Rectangle.t :=
  (let style := _style this in
   let lines := _lines this in
   let numLines := length lines in
   let leading := leading style in
   let justification := justification style in
   (* Create SVG dom element from text *)
   let svg := markup this in
   (* Append to dom *)
   h <- createElement ;;
   let element := host_span h this in
   (* Measure bbox *)
   bbox <- try_finally
             (raise_if (span_appendChild element svg) ;;
              raise_if (body_refuses element svg) ;;
              body_appendChild h ;;
              (* Take the bounding box. *)
              lift (getBBox element svg))
             (* Always destroy the element, even if getBBox throws. *)
             (body_removeChild h) ;;
   (* Enlarge the bbox from the largest found stroke width *)
   let halfStrokeWidth := strokeWidth style / 2 in
   let width := SVGRect.width bbox + (halfStrokeWidth * 2) in
   let height := SVGRect.height bbox + (halfStrokeWidth * 2) in
   let x := SVGRect.x bbox - halfStrokeWidth in
   let y := SVGRect.y bbox - halfStrokeWidth in
   (* Adjust for different justifications. *)
   let x :=
     if negb (justification =? "left")%string
     then
       let eltWidth := getTextWidth (getFontStyle style) lines in
       x - eltWidth / (if (justification =? "center")%string then 2 else 1)
     else x in
   (* Add 1 to give space for text cursor *)
   ret (Rectangle.new x y (width + 1)
          (Math.max height (num numLines * leading))))%dom.

(** [matrix._transformBounds(rect, rect)], defined by [Matrix]. *)
Variable _transformBounds : Matrix.t -> Rectangle.t -> Rectangle.t.

(** [PointText#_getBounds] *)
Definition _getBounds (this : PointText) (matrix : option Matrix.t)
    (options : Options) : DOM Rectangle.t :=
  (rect <- (if drawnTextBounds options then _getDrawnTextSize this
            else ret (_getMeasuredTextSize this)) ;;
   ret (match matrix with
        | Some m => _transformBounds m rect
        | None => rect
        end))%dom.

End Drawn.

(** ** Exact bounds estimator, with the rounding of the arithmetic

    JavaScript computes each [+], [-], [*] and [/] on numbers in binary64
    and rounds the result.  The definitions below are lines 128 to 190
    again, with that rounding made explicit as a function [rnd] applied to
    the result of every arithmetic operation; comparisons and [Math.max] do
    not round.  With the identity for [rnd] they are the definitions
    above. *)

(** The styles given to the hidden [span] (lines 153 to 158), the quotient
    [this.leading / this.fontSize] being rounded. *)
Definition host_span_rounded (rnd : Q -> Q) (h : handle) (this : PointText)
  : Span :=
  let style := _style this in
  mkSpan h "hidden" "pre" (fontSize style) (fontFamily style)
         (rnd (leading style / fontSize style)).

Section DrawnRounded.
Context `{Collaborators} `{Browser}.
Variable rnd : Q -> Q.

(** [PointText#_getDrawnTextSize], every arithmetic result rounded. *)
Definition _getDrawnTextSize_rounded (this : PointText) : DOM Rectangle.t :=
  (let style := _style this in
   let lines := _lines this in
   let numLines := length lines in
   let leading := leading style in
   let justification := justification style in
   (* Create SVG dom element from text *)
   let svg := markup this in
   (* Append to dom *)
   h <- createElement ;;
   let element := host_span_rounded rnd h this in
   (* Measure bbox *)
   bbox <- try_finally
             (raise_if (span_appendChild element svg) ;;
              raise_if (body_refuses element svg) ;;
              body_appendChild h ;;
              (* Take the bounding box. *)
              lift (getBBox element svg))
             (* Always destroy the element, even if getBBox throws. *)
             (body_removeChild h) ;;
   (* Enlarge the bbox from the largest found stroke width *)
   let halfStrokeWidth := rnd (strokeWidth style / 2) in
   let width := rnd (SVGRect.width bbox + rnd (halfStrokeWidth * 2)) in
   let height := rnd (SVGRect.height bbox + rnd (halfStrokeWidth * 2)) in
   let x := rnd (SVGRect.x bbox - halfStrokeWidth) in
   let y := rnd (SVGRect.y bbox - halfStrokeWidth) in
   (* Adjust for different justifications. *)
   let x :=
     if negb (justification =? "left")%string
     then
       let eltWidth := getTextWidth (getFontStyle style) lines in
       rnd (x - rnd (eltWidth
                     / (if (justification =? "center")%string then 2 else 1)))
     else x in
   (* Add 1 to give space for text cursor *)
   ret (Rectangle.new x y (rnd (width + 1))
          (Math.max height (rnd (num numLines * leading)))))%dom.

End DrawnRounded.

(** ** Hit tester *)

Record HitResult := mkHitResult {
  hit_type : string;
  hit_item : PointText
}.

Section HitTest.
Context `{Collaborators}.

(** [PointText#_hitTestSelf]; [this.hasFill()] asks the style. *)
Definition _hitTestSelf (this : PointText) (point : Point.t)
    (options : Options) : option HitResult :=
  if fill options
     && (hasFill (_style this) || hitUnfilledPaths options)
     && _contains this point
  then Some (mkHitResult "fill" this)
  else None.

End HitTest.

(** * Vocabulary of the properties *)

(** A justification outside the three values the style documents. *)
Definition unknown_justification (j : string) : Prop :=
  j <> "left" /\ j <> "center" /\ j <> "right".

(** Every child of the body was created before: its handle is below the
    next unused one. *)
Definition well_formed (doc : Document) : Prop :=
  Forall (fun e => (e < next_handle doc)%nat) (body doc).

(** The three steps of the measurement succeed on the host of [this] and
    the engine reports [bbox]. *)
Definition measures `{Browser} (this : PointText) (doc : Document)
    (bbox : SVGRect.t) : Prop :=
  let element := host_span (next_handle doc) this in
  let svg := markup this in
  span_appendChild element svg = None /\
  body_refuses element svg = None /\
  getBBox element svg = Normal bbox.

(** The rectangle that lines 176 to 189 compute from a bounding box. *)
Definition enlarged `{Collaborators} (this : PointText) (bbox : SVGRect.t)
  : Rectangle.t :=
  let style := _style this in
  let halfStrokeWidth := strokeWidth style / 2 in
  let x := SVGRect.x bbox - halfStrokeWidth in
  Rectangle.new
    (if negb (justification style =? "left")%string
     then x - getTextWidth (getFontStyle style) (_lines this)
              / (if (justification style =? "center")%string then 2 else 1)
     else x)
    (SVGRect.y bbox - halfStrokeWidth)
    (SVGRect.width bbox + (halfStrokeWidth * 2) + 1)
    (Math.max (SVGRect.height bbox + (halfStrokeWidth * 2))
              (num (length (_lines this)) * leading style)).

(** A step of the measurement raises. *)
Definition measurement_raises `{Browser} (this : PointText) (doc : Document)
  : Prop :=
  let element := host_span (next_handle doc) this in
  let svg := markup this in
  span_appendChild element svg <> None \/
  body_refuses element svg <> None \/
  exists e, getBBox element svg = Throw e.

(** The same item with another stroke width; everything else is kept. *)
Definition with_strokeWidth (w : Q) (this : PointText) : PointText :=
  setStyle (setStrokeWidth w (_style this)) this.

(** The calls one line receives, as section 4.2 of the spec orders them:
    the ambient shadow is restored; the fill, if any, is drawn with it and
    the shadow is cleared right after; the stroke, if any, follows; the
    origin advances by the leading. *)
Definition line_calls (hasFill hasStroke : bool) (leading : Q)
    (ambient : string) (line : string) : list CanvasCall :=
  ([SetShadowColor ambient]
   ++ (if hasFill
       then [FillText line 0 0 ambient; SetShadowColor transparent]
       else [])
   ++ (if hasStroke
       then [StrokeText line 0 0 (if hasFill then transparent else ambient)]
       else [])
   ++ [Translate 0 leading])%list.

(** A paint call that casts a shadow. *)
Definition casts_shadow (call : CanvasCall) : bool :=
  match call with
  | FillText _ _ _ shadow | StrokeText _ _ _ shadow =>
      negb (shadow =? transparent)%string
  | _ => false
  end.

Definition is_stroke (call : CanvasCall) : bool :=
  match call with StrokeText _ _ _ _ => true | _ => false end.

(** What the body of the loop does with the line it reads. *)
Definition paint_line (hf hs : bool) (ld : Q) (ambient : string)
    (line : string) (c : Context2D) : Context2D :=
  let c := ctx.set_shadowColor ambient c in
  let c :=
    if hf then ctx.set_shadowColor transparent (ctx.fillText line 0 0 c)
    else c in
  let c := if hs then ctx.strokeText line 0 0 c else c in
  ctx.translate 0 ld c.

(** The same item with another justification; everything else is kept. *)
Definition with_justification (j : string) (this : PointText) : PointText :=
  let s := _style this in
  setStyle (mkStyle (fontFamily s) (fontWeight s) (fontSize s) (leading s) j
                    (fillColor s) (strokeColor s) (strokeWidth s)) this.

(** The texts that a list of canvas calls fills, in order. *)
Definition filled_texts (l : list CanvasCall) : list string :=
  flat_map (fun call =>
              match call with FillText text _ _ _ => [text] | _ => [] end) l.

(** The texts that a list of canvas calls strokes, in order. *)
Definition stroked_texts (l : list CanvasCall) : list string :=
  flat_map (fun call =>
              match call with StrokeText text _ _ _ => [text] | _ => [] end) l.

(** The moves of the origin that a list of canvas calls asks for. *)
Definition origin_moves (l : list CanvasCall) : list (Q * Q) :=
  flat_map (fun call =>
              match call with Translate dx dy => [(dx, dy)] | _ => [] end) l.

(** A paint call draws its text at the local origin. *)
Definition paints_at_origin (call : CanvasCall) : Prop :=
  match call with
  | FillText _ x y _ | StrokeText _ x y _ => x = 0 /\ y = 0
  | _ => True
  end.

(** [matrix ? matrix._transformBounds(rect, rect) : rect] *)
Definition transformed (transformBounds : Matrix.t -> Rectangle.t -> Rectangle.t)
    (matrix : option Matrix.t) (rect : Rectangle.t) : Rectangle.t :=
  match matrix with
  | Some m => transformBounds m rect
  | None => rect
  end.





(** Rounding down to the next multiple of a quarter: a coarse rounding, to
    run the rounded definitions. *)
Definition to_quarters (q : Q) : Q := inject_Z (Qfloor (q * 4)) / 4.

(** * Sample inputs

    Concrete collaborators, items, documents and contexts, used to run the
    definitions. *)

Definition sample_collaborators : Collaborators := {|
  getFontStyle := fun s => fontFamily s;
  hasFill := fun s => match fillColor s with Some _ => true | None => false end;
  hasStroke :=
    fun s => match strokeColor s with Some _ => true | None => false end;
  getTextWidth := fun _ lines => 10 * num (length lines);
  _contains := fun _ p => Qle_bool 0 (Point.x p) && Qle_bool (Point.x p) 10
|}.

Definition sample_style (j : string) (sw : Q) : Style :=
  mkStyle "sans-serif" "normal" 10 12 j (Some "black") None sw.

Definition sample_text (j : string) (sw : Q) : PointText :=
  mkPointText Matrix.identity "AB" ["AB"] (sample_style j sw).

(** A browser whose attachment steps succeed and whose engine answers
    [outcome] to every [getBBox]. *)
Definition sample_browser (outcome : Completion SVGRect.t) : Browser := {|
  span_appendChild := fun _ _ => None;
  body_refuses := fun _ _ => None;
  getBBox := fun _ _ => outcome
|}.

Definition sample_bbox : SVGRect.t := SVGRect.new 0 (-9) 20 10.

Definition sample_document : Document := mkDocument [0; 1]%nat 2%nat.

(** An item without content and without lines. *)
Definition empty_text : PointText :=
  mkPointText Matrix.identity "" [] (sample_style "left" 0).

(** An engine that fails in [getBBox]. *)
Definition failing_browser : Browser :=
  sample_browser (Throw (HostError "getBBox failed")).

Definition two_lines : PointText :=
  mkPointText Matrix.identity ("a" ++ String (Ascii.ascii_of_nat 10) "b") ["a"; "b"]
    (mkStyle "sans-serif" "normal" 10 12 "left" (Some "black") (Some "red") 1).

Definition sample_context : Context2D :=
  mkContext "rgba(0,0,0,0.5)" "10px sans-serif" "start" Matrix.identity [].

(** An item rotated by a quarter turn and scaled by two, anchored at
    [(3, 4)], stored at location [7]. *)
Definition turned_text : PointText :=
  mkPointText (Matrix.new 0 2 (-2) 0 3 4) "AB" ["AB"] (sample_style "left" 0).

Definition sample_heap : gmap loc PointText := {[ 7%nat := turned_text ]}.

(** A browser in which the markup cannot be put into its host. *)
Definition detached_browser : Browser := {|
  span_appendChild := fun _ _ => Some (HostError "appendChild failed");
  body_refuses := fun _ _ => None;
  getBBox := fun _ _ => Normal sample_bbox
|}.

(** A bounds transform that moves a rectangle by the translation of the
    matrix. *)
Definition sample_transformBounds (m : Matrix.t) (r : Rectangle.t)
  : Rectangle.t :=
  Rectangle.new (Rectangle.x r + Matrix.tx m) (Rectangle.y r + Matrix.ty m)
                (Rectangle.width r) (Rectangle.height r).

(** * Properties *)

(** ** Numbers *)

Lemma Math_max_ge_l a b : a <= Math.max a b.
Proof.
  unfold Math.max. destruct (Qle_bool a b) eqn:E.
  - now apply Qle_bool_iff.
  - apply Qle_refl.
Qed.

Lemma Math_max_ge_r a b : b <= Math.max a b.
Proof.
  unfold Math.max. destruct (Qle_bool a b) eqn:E.
  - apply Qle_refl.
  - destruct (Qlt_le_dec a b) as [Hlt|Hle]; [|exact Hle].
    apply Qlt_le_weak, Qle_bool_iff in Hlt. congruence.
Qed.



Lemma num_nonneg n : 0 <= num n.
Proof. unfold num, Qle. simpl. lia. Qed.

(** ** Strings: the comparisons of the source against the three names *)

Lemma is_left : forall j, j = "left" -> (j =? "left")%string = true.
Proof. intros j ->. reflexivity. Qed.

Lemma not_left : forall j, j <> "left" -> (j =? "left")%string = false.
Proof. intros j Hj. now apply String.eqb_neq. Qed.

Lemma not_center : forall j, j <> "center" -> (j =? "center")%string = false.
Proof. intros j Hj. now apply String.eqb_neq. Qed.

(** ** Metrics bounds (C1) *)

Section MeasuredFacts.
Context `{Collaborators}.

Lemma measured_x_left this :
  justification (_style this) = "left" ->
  Rectangle.x (_getMeasuredTextSize this) == 0.
Proof.
  intros Hj. unfold _getMeasuredTextSize. simpl.
  rewrite (is_left _ Hj). reflexivity.
Qed.

Lemma measured_x_center this :
  justification (_style this) = "center" ->
  Rectangle.x (_getMeasuredTextSize this)
  == - (getTextWidth (getFontStyle (_style this)) (_lines this) / 2).
Proof.
  intros Hj. unfold _getMeasuredTextSize. simpl.
  rewrite Hj. simpl. lra.
Qed.

Lemma measured_x_other this :
  justification (_style this) <> "left" ->
  justification (_style this) <> "center" ->
  Rectangle.x (_getMeasuredTextSize this)
  == - getTextWidth (getFontStyle (_style this)) (_lines this).
Proof.
  intros Hl Hc. unfold _getMeasuredTextSize. simpl.
  rewrite (not_left _ Hl), (not_center _ Hc). simpl. field.
Qed.

End MeasuredFacts.

(** C1.  The metrics bounds are [Rectangle(x, y, width, height)] with
    [width] the paragraph width given by the font metrics; [x] is [0] for
    the justification ['left'], [-width] for ['right'] and [-width/2] for
    ['center']; [y] is [-0.75 * leading] when there is at least one line and
    [0] when there is none; [height] is [numLines * leading]. *)
Theorem measured_bounds_rectangle `{Collaborators} (this : PointText) :
  let style := _style this in
  let lines := _lines this in
  let width := getTextWidth (getFontStyle style) lines in
  let r := _getMeasuredTextSize this in
  Rectangle.width r == width /\
  (justification style = "left" -> Rectangle.x r == 0) /\
  (justification style = "right" -> Rectangle.x r == - width) /\
  (justification style = "center" -> Rectangle.x r == - (width / 2)) /\
  (lines <> [] -> Rectangle.y r == - (3 # 4) * leading style) /\
  (lines = [] -> Rectangle.y r == 0) /\
  Rectangle.height r == num (length lines) * leading style.
Proof.
  cbv zeta. repeat apply conj.
  - reflexivity.
  - apply measured_x_left.
  - intros Hj. apply measured_x_other; rewrite Hj; discriminate.
  - apply measured_x_center.
  - intros Hne. unfold _getMeasuredTextSize. simpl.
    destruct (_lines this); [contradiction|]. reflexivity.
  - intros Hnil. unfold _getMeasuredTextSize. simpl.
    rewrite Hnil. reflexivity.
  - reflexivity.
Qed.

(** ** The run of the exact bounds estimator *)

Lemma remove_handle_fresh e l :
  Forall (fun h => (h < e)%nat) l -> remove_handle e l = l.
Proof.
  unfold remove_handle. induction 1 as [|h l Hh _ IH]; simpl.
  - reflexivity.
  - replace (h =? e)%nat with false by (symmetry; apply Nat.eqb_neq; lia).
    simpl. now rewrite IH.
Qed.

Lemma remove_handle_appended e l :
  remove_handle e (remove_handle e l ++ [e]) = remove_handle e l.
Proof.
  unfold remove_handle. rewrite List.filter_app. simpl.
  rewrite Nat.eqb_refl. simpl. rewrite app_nil_r.
  induction l as [|h l IH]; simpl; [reflexivity|].
  destruct (h =? e)%nat eqn:E; simpl; [exact IH|].
  rewrite E. simpl. now rewrite IH.
Qed.

Lemma appended_is_child e l :
  existsb (fun h => (h =? e)%nat) (l ++ [e]) = true.
Proof.
  rewrite existsb_app. simpl. rewrite Nat.eqb_refl.
  now rewrite orb_true_r.
Qed.

Lemma fresh_is_no_child e l :
  Forall (fun h => (h < e)%nat) l -> existsb (fun h => (h =? e)%nat) l = false.
Proof.
  induction 1 as [|h l Hh _ IH]; simpl; [reflexivity|].
  rewrite IH. replace (h =? e)%nat with false; [reflexivity|].
  symmetry. apply Nat.eqb_neq. lia.
Qed.

Section DrawnRun.
Context `{Collaborators} `{Browser}.

(** When the measurement succeeds, the estimator returns the enlarged box
    and has removed the host from the body. *)
Lemma drawn_run_success this doc bbox :
  measures this doc bbox ->
  _getDrawnTextSize this doc
  = (Normal (enlarged this bbox),
     mkDocument (remove_handle (next_handle doc) (body doc))
                (Datatypes.S (next_handle doc))).
Proof.
  intros (Hsvg & Hbody & Hbbox).
  unfold _getDrawnTextSize, bind, try_finally, createElement, raise_if,
    body_appendChild, body_removeChild, lift, ret. simpl.
  rewrite Hsvg, Hbody, Hbbox. simpl.
  rewrite appended_is_child, remove_handle_appended. reflexivity.
Qed.

(** When a step of the measurement raises, the estimator throws, and the
    host is not a child of the body afterwards. *)
Lemma drawn_run_failure this doc :
  well_formed doc ->
  (forall bbox, ~ measures this doc bbox) ->
  exists e,
    _getDrawnTextSize this doc
    = (Throw e, mkDocument (body doc) (Datatypes.S (next_handle doc))).
Proof.
  intros Hwf Hfail.
  unfold _getDrawnTextSize, bind, try_finally, createElement, raise_if,
    body_appendChild, body_removeChild, lift, ret, throw. simpl.
  destruct (span_appendChild _ _) as [e1|] eqn:Hsvg; simpl.
  { rewrite (fresh_is_no_child _ _ Hwf). eauto. }
  destruct (body_refuses _ _) as [e2|] eqn:Hbody; simpl.
  { rewrite (fresh_is_no_child _ _ Hwf). eauto. }
  rewrite appended_is_child, remove_handle_appended.
  rewrite (remove_handle_fresh _ _ Hwf).
  destruct (getBBox _ _) as [bbox|e3] eqn:Hbbox; simpl.
  - exfalso. apply (Hfail bbox). repeat split; assumption.
  - eauto.
Qed.

End DrawnRun.

Lemma Math_max_wd a a' b b' :
  a == a' -> b == b' -> Math.max a b == Math.max a' b'.
Proof.
  intros Ha Hb. unfold Math.max.
  destruct (Qle_bool a b) eqn:E, (Qle_bool a' b') eqn:E'; try assumption.
  - apply Qle_bool_iff in E. rewrite Ha, Hb in E.
    apply Qle_bool_iff in E. congruence.
  - apply Qle_bool_iff in E'. rewrite <- Ha, <- Hb in E'.
    apply Qle_bool_iff in E'. congruence.
Qed.

Lemma raises_excludes_measures `{Browser} this doc :
  measurement_raises this doc -> forall bbox, ~ measures this doc bbox.
Proof.
  intros Hraise bbox (Hsvg & Hbody & Hbbox).
  destruct Hraise as [Hne | [Hne | [e He]]]; try contradiction.
  cbv zeta in He. rewrite Hbbox in He. discriminate.
Qed.

Lemma sample_document_well_formed : well_formed sample_document.
Proof. unfold well_formed, sample_document. simpl. repeat constructor. Qed.

Lemma sample_measures j sw :
  @measures (sample_browser (Normal sample_bbox)) (sample_text j sw)
            sample_document sample_bbox.
Proof. repeat split. Qed.

(** ** Exact bounds (C2) *)

(** C2.  When the measurement succeeds with the raw box [bbox], the exact
    bounds are the box grown by [halfStroke = strokeWidth / 2] on each side
    ([x - halfStroke], [y - halfStroke], [width + 2 * halfStroke],
    [height + 2 * halfStroke]), with [x] shifted by the justification
    correction taken from the metrics paragraph width (nothing for
    ['left'], the width for ['right'], half of it for ['center']), one unit
    added to the width, and the height at least [numLines * leading]. *)
Theorem drawn_bounds_rectangle `{Collaborators} `{Browser}
    (this : PointText) (doc : Document) (bbox : SVGRect.t) :
  measures this doc bbox ->
  let style := _style this in
  let halfStroke := strokeWidth style / 2 in
  let width := getTextWidth (getFontStyle style) (_lines this) in
  exists r,
    fst (_getDrawnTextSize this doc) = Normal r /\
    (justification style = "left" ->
     Rectangle.x r == SVGRect.x bbox - halfStroke) /\
    (justification style = "right" ->
     Rectangle.x r == SVGRect.x bbox - halfStroke - width) /\
    (justification style = "center" ->
     Rectangle.x r == SVGRect.x bbox - halfStroke - width / 2) /\
    Rectangle.y r == SVGRect.y bbox - halfStroke /\
    Rectangle.width r == (SVGRect.width bbox + 2 * halfStroke) + 1 /\
    Rectangle.height r
    == Math.max (SVGRect.height bbox + 2 * halfStroke)
                (num (length (_lines this)) * leading style).
Proof.
  intros Hm. cbv zeta. exists (enlarged this bbox).
  rewrite (drawn_run_success _ _ _ Hm). simpl.
  repeat apply conj.
  - reflexivity.
  - intros Hj. rewrite (is_left _ Hj). simpl. reflexivity.
  - intros Hj. rewrite Hj. simpl. field.
  - intros Hj. rewrite Hj. simpl. reflexivity.
  - reflexivity.
  - lra.
  - apply Math_max_wd; [lra | reflexivity].
Qed.

(** The exact bounds of a centred line with stroke width 2. *)
Lemma drawn_bounds_rectangle_witness :
  exists r,
    fst (@_getDrawnTextSize sample_collaborators
           (sample_browser (Normal sample_bbox))
           (sample_text "center" 2) sample_document) = Normal r /\
    Rectangle.width r == (20 + 2 * (2 / 2)) + 1.
Proof.
  destruct (@drawn_bounds_rectangle sample_collaborators
              (sample_browser (Normal sample_bbox))
              (sample_text "center" 2) sample_document sample_bbox
              (sample_measures "center" 2))
    as (r & Hr & _ & _ & _ & _ & Hw & _).
  exists r. split; [exact Hr | exact Hw].
Defined.

(** ** Stroke width and the exact bounds (C3, C10) *)

(** The stroke width is not part of the markup nor of the host's styles:
    the measurement of the item is the same whatever the stroke width. *)
Lemma measures_with_strokeWidth `{Browser} w this doc bbox :
  measures this doc bbox -> measures (with_strokeWidth w this) doc bbox.
Proof. intros Hm. exact Hm. Qed.

(** With the identity for the rounding, the rounded estimator is the
    estimator in exact arithmetic. *)
Lemma rounded_with_identity `{Collaborators} `{Browser} this :
  _getDrawnTextSize_rounded (fun q => q) this = _getDrawnTextSize this.
Proof. reflexivity. Qed.






(** *** A rounding that is monotone and has a relative error of at most
    [eps] *)

Section Rounding.
Variable rnd : Q -> Q.
Variable eps : Q.
Hypothesis rnd_monotone : forall x y, x <= y -> rnd x <= rnd y.
Hypothesis rnd_error : forall x, Qabs (rnd x - x) <= eps * Qabs x.
Hypothesis eps_nonneg : 0 <= eps.
Hypothesis eps_small : eps <= 1.












End Rounding.



(** A coarse rounding shows why the growth is stated up to the rounding:
    rounding down to quarters, a stroke width of an eighth is lost and the
    width does not grow at all. *)
Example stroke_width_absorbed_by_rounding :
  exists r0 rs,
    fst (@_getDrawnTextSize_rounded sample_collaborators
           (sample_browser (Normal sample_bbox)) to_quarters
           (with_strokeWidth 0 (sample_text "left" 0)) sample_document)
    = Normal r0 /\
    fst (@_getDrawnTextSize_rounded sample_collaborators
           (sample_browser (Normal sample_bbox)) to_quarters
           (with_strokeWidth (1 # 8) (sample_text "left" 0)) sample_document)
    = Normal rs /\
    Rectangle.width rs == Rectangle.width r0.
Proof.
  eexists. eexists.
  split; [vm_compute; reflexivity|].
  split; [vm_compute; reflexivity|].
  vm_compute. reflexivity.
Qed.


(** C10.  When the measurement succeeds and the raw box has a width that is
    not negative, the width of the exact bounds is at least
    [1 + strokeWidth]; with a stroke width that is not negative it is
    strictly positive, whatever the content. *)
Theorem drawn_width_positive `{Collaborators} `{Browser}
    (this : PointText) (doc : Document) (bbox : SVGRect.t) :
  measures this doc bbox ->
  0 <= SVGRect.width bbox ->
  exists r,
    fst (_getDrawnTextSize this doc) = Normal r /\
    1 + strokeWidth (_style this) <= Rectangle.width r /\
    (0 <= strokeWidth (_style this) -> 0 < Rectangle.width r).
Proof.
  intros Hm Hw. exists (enlarged this bbox).
  rewrite (drawn_run_success _ _ _ Hm). simpl.
  assert (Hge : 1 + strokeWidth (_style this)
                <= SVGRect.width bbox + strokeWidth (_style this) / 2 * 2 + 1).
  { assert (E : strokeWidth (_style this) / 2 * 2
                == strokeWidth (_style this)) by field.
    rewrite E. lra. }
  repeat apply conj; [reflexivity | exact Hge | intros Hsw; lra].
Qed.

(** The exact bounds of an item without lines, measured as an empty box. *)
Lemma drawn_width_positive_witness :
  exists r,
    fst (@_getDrawnTextSize sample_collaborators
           (sample_browser (Normal (SVGRect.new 0 0 0 0)))
           empty_text sample_document) = Normal r /\
    1 + 0 <= Rectangle.width r.
Proof.
  destruct (@drawn_width_positive sample_collaborators
              (sample_browser (Normal (SVGRect.new 0 0 0 0)))
              empty_text sample_document (SVGRect.new 0 0 0 0)
              ltac:(repeat split) ltac:(discriminate))
    as (r & Hr & Hw & _).
  exists r. split; assumption.
Defined.

(** ** Release of the measurement host (C4) *)

(** C4.  In a document whose elements were all created before, the exact
    bounds estimator leaves the children of the body as it found them,
    whether the measurement succeeds or raises: the host it attached is
    removed on every path.  When the measurement succeeds the result is the
    enlarged box; when a step of it raises, the estimator completes with an
    exception, never with a rectangle, so in particular never with the
    metrics estimate. *)
Theorem measurement_host_released `{Collaborators} `{Browser}
    (this : PointText) (doc : Document) :
  well_formed doc ->
  let result := _getDrawnTextSize this doc in
  body (snd result) = body doc /\
  ~ In (next_handle doc) (body (snd result)) /\
  (forall bbox, measures this doc bbox ->
     fst result = Normal (enlarged this bbox)) /\
  (measurement_raises this doc ->
     (exists e, fst result = Throw e) /\
     fst result <> Normal (_getMeasuredTextSize this)).
Proof.
  intros Hwf. cbv zeta.
  assert (Hfresh : ~ In (next_handle doc) (body doc)).
  { intros Hin. unfold well_formed in Hwf.
    rewrite List.Forall_forall in Hwf. specialize (Hwf _ Hin). lia. }
  assert (Hbody : body (snd (_getDrawnTextSize this doc)) = body doc).
  { destruct (span_appendChild (host_span (next_handle doc) this)
                (markup this)) as [e1|] eqn:Hsvg.
    - destruct (drawn_run_failure this doc Hwf) as [e He].
      + intros bbox (Hs & _). congruence.
      + rewrite He. reflexivity.
    - destruct (body_refuses (host_span (next_handle doc) this)
                  (markup this)) as [e2|] eqn:Hbd.
      + destruct (drawn_run_failure this doc Hwf) as [e He].
        * intros bbox (_ & Hb & _). congruence.
        * rewrite He. reflexivity.
      + destruct (getBBox (host_span (next_handle doc) this)
                    (markup this)) as [bbox|e3] eqn:Hbb.
        * rewrite (drawn_run_success this doc bbox) by (repeat split; assumption).
          simpl. apply remove_handle_fresh, Hwf.
        * destruct (drawn_run_failure this doc Hwf) as [e He].
          -- intros bbox (_ & _ & Hg). congruence.
          -- rewrite He. reflexivity. }
  repeat apply conj.
  - exact Hbody.
  - rewrite Hbody. exact Hfresh.
  - intros bbox Hm. now rewrite (drawn_run_success _ _ _ Hm).
  - intros Hraise.
    destruct (drawn_run_failure this doc Hwf
                (raises_excludes_measures _ _ Hraise)) as [e He].
    rewrite He. simpl. split; [now exists e | discriminate].
Qed.

(** The body keeps its two children when [getBBox] throws. *)
Lemma measurement_host_released_witness :
  body (snd (@_getDrawnTextSize sample_collaborators failing_browser
               (sample_text "left" 0) sample_document))
  = [0; 1]%nat.
Proof.
  apply (@measurement_host_released sample_collaborators failing_browser
           (sample_text "left" 0) sample_document
           sample_document_well_formed).
Defined.

(** The three exits of the estimator on a concrete document. *)
Example drawn_throws_when_getBBox_throws :
  @_getDrawnTextSize sample_collaborators failing_browser
    (sample_text "left" 0) sample_document
  = (Throw (HostError "getBBox failed"), mkDocument [0; 1]%nat 3%nat).
Proof. reflexivity. Qed.

Example drawn_throws_when_host_is_not_attached :
  @_getDrawnTextSize sample_collaborators
    {| span_appendChild := fun _ _ => Some (HostError "appendChild failed");
       body_refuses := fun _ _ => None;
       getBBox := fun _ _ => Normal sample_bbox |}
    (sample_text "left" 0) sample_document
  = (Throw NotFoundError, mkDocument [0; 1]%nat 3%nat).
Proof. reflexivity. Qed.

Example drawn_returns_when_measured :
  exists r,
    @_getDrawnTextSize sample_collaborators
      (sample_browser (Normal sample_bbox))
      (sample_text "left" 0) sample_document
    = (Normal r, mkDocument [0; 1]%nat 3%nat).
Proof. eexists. vm_compute. reflexivity. Qed.

(** ** Unknown justification (C6) *)

(** C6 fails as the spec words it: with the unknown justification
    ['justify'] and a paragraph 10 wide, the metrics bounds start at
    [x = -10] and the exact bounds of a raw box at [0] start at [-10],
    where ['left'] would give [0]. *)
Lemma unknown_justification_not_left :
  unknown_justification "justify" /\
  Rectangle.x (@_getMeasuredTextSize sample_collaborators
                 (sample_text "justify" 0)) == - (10) /\
  ~ (Rectangle.x (@_getMeasuredTextSize sample_collaborators
                    (sample_text "justify" 0)) == 0) /\
  exists r,
    fst (@_getDrawnTextSize sample_collaborators
           (sample_browser (Normal sample_bbox))
           (sample_text "justify" 0) sample_document) = Normal r /\
    ~ (Rectangle.x r == SVGRect.x sample_bbox - 0 / 2).
Proof.
  repeat apply conj; try discriminate.
  - vm_compute. reflexivity.
  - eexists. split; [vm_compute; reflexivity | vm_compute; discriminate].
Qed.

(** C6, as the code has it.  A justification that is none of ['left'],
    ['center'] and ['right'] is treated as ['right'] by both estimators:
    the metrics bounds start at [x = -width], and the exact bounds, which
    are returned whenever the measurement succeeds, start at
    [bbox.x - strokeWidth / 2 - width]; the value makes neither estimator
    fail. *)
Theorem unknown_justification_as_right `{Collaborators} `{Browser}
    (this : PointText) (doc : Document) :
  unknown_justification (justification (_style this)) ->
  let width := getTextWidth (getFontStyle (_style this)) (_lines this) in
  Rectangle.x (_getMeasuredTextSize this) == - width /\
  forall bbox, measures this doc bbox ->
    exists r,
      fst (_getDrawnTextSize this doc) = Normal r /\
      Rectangle.x r
      == SVGRect.x bbox - strokeWidth (_style this) / 2 - width.
Proof.
  intros (Hl & Hc & _). cbv zeta. split.
  - now apply measured_x_other.
  - intros bbox Hm. exists (enlarged this bbox).
    rewrite (drawn_run_success _ _ _ Hm). simpl.
    rewrite (not_left _ Hl), (not_center _ Hc). simpl.
    split; [reflexivity | field].
Qed.

(** The metrics bounds of a line justified ['justify']. *)
Lemma unknown_justification_as_right_witness :
  Rectangle.x (@_getMeasuredTextSize sample_collaborators
                 (sample_text "justify" 0))
  == - @getTextWidth sample_collaborators
         (@getFontStyle sample_collaborators (sample_style "justify" 0))
         ["AB"].
Proof.
  apply (@unknown_justification_as_right sample_collaborators
           (sample_browser (Normal sample_bbox))
           (sample_text "justify" 0) sample_document).
  repeat split; discriminate.
Defined.

(** ** The loop over the lines *)

(** A counting loop that reads [lines[i]] and nothing else of [i] visits the
    lines in order. *)
Lemma for_loop_from {S : Type} (body : string -> S -> S)
    (rest done : list string) (s : S) :
  for_loop (length rest) (length done) (length (done ++ rest))
           (fun i => body (at_index (done ++ rest) i)) s
  = fold_left (fun s line => body line s) rest s.
Proof.
  revert done s. induction rest as [|line rest IH]; intros done s.
  - reflexivity.
  - cbn [length for_loop fold_left].
    replace (length done <? length (done ++ line :: rest))%nat with true.
    2:{ symmetry. apply Nat.ltb_lt. rewrite length_app. simpl. lia. }
    replace (at_index (done ++ line :: rest) (length done)) with line.
    2:{ unfold at_index. rewrite app_nth2 by lia.
        now rewrite Nat.sub_diag. }
    specialize (IH (done ++ [line])%list).
    rewrite <- app_assoc, length_app in IH. simpl in IH.
    rewrite Nat.add_1_r in IH. apply IH.
Qed.

Lemma for_loop_lines {S : Type} (body : string -> S -> S)
    (lines : list string) (s : S) :
  for_loop (length lines) 0 (length lines)
           (fun i => body (at_index lines i)) s
  = fold_left (fun s line => body line s) lines s.
Proof. exact (for_loop_from body lines [] s). Qed.

(** The markup has one [tspan] per line, in order; the first has no
    vertical offset and the others are offset by the leading. *)
Example markup_of_three_lines :
  tspans (markup (mkPointText Matrix.identity "a" ["a"; "bb"; "ccc"]
                    (sample_style "left" 0)))
  = [mkTSpan "0" DyZero "a"; mkTSpan "0" (DyPx 12) "bb";
     mkTSpan "0" (DyPx 12) "ccc"].
Proof. reflexivity. Qed.

(** ** Shadow and paint order (C7) *)

Lemma draw_line_paints lines hf hs ld ambient i c :
  draw_line lines hf hs ld ambient i c
  = paint_line hf hs ld ambient (at_index lines i) c.
Proof. reflexivity. Qed.

Lemma paint_line_calls hf hs ld ambient line c :
  calls (paint_line hf hs ld ambient line c)
  = (calls c ++ line_calls hf hs ld ambient line)%list.
Proof.
  unfold paint_line, line_calls.
  destruct hf, hs; simpl; repeat rewrite <- app_assoc; reflexivity.
Qed.

Lemma paint_lines_calls hf hs ld ambient (lines : list string) c :
  calls (fold_left (fun c line => paint_line hf hs ld ambient line c)
                   lines c)
  = (calls c ++ flat_map (line_calls hf hs ld ambient) lines)%list.
Proof.
  revert c. induction lines as [|line lines IH]; intros c; simpl.
  - now rewrite app_nil_r.
  - rewrite IH, paint_line_calls. now rewrite <- app_assoc.
Qed.

Lemma draw_loop_calls hf hs ld ambient (lines : list string) c :
  calls (for_loop (length lines) 0 (length lines)
                  (draw_line lines hf hs ld ambient) c)
  = (calls c ++ flat_map (line_calls hf hs ld ambient) lines)%list.
Proof.
  rewrite <- paint_lines_calls. f_equal.
  exact (for_loop_lines (paint_line hf hs ld ambient) lines c).
Qed.

Lemma line_casts_one_shadow hf hs ld ambient line :
  (length (List.filter casts_shadow (line_calls hf hs ld ambient line))
   <= 1)%nat.
Proof.
  unfold line_calls.
  destruct hf, hs; simpl;
    destruct (negb (ambient =? transparent)%string); simpl; lia.
Qed.

Lemma line_stroke_after_fill_unshadowed hs ld ambient line call :
  In call (line_calls true hs ld ambient line) ->
  is_stroke call = true -> casts_shadow call = false.
Proof.
  unfold line_calls. destruct hs; simpl; intros Hin Hst;
    repeat (destruct Hin as [<- | Hin]; try discriminate Hst;
            try reflexivity);
    contradiction.
Qed.

(** C7.  Drawing an item with content issues, for each line in order:
    the assignment that restores the ambient shadow, before the first paint
    call of the line; if the style has a fill, the fill with the ambient
    shadow followed at once by the assignment that clears the shadow to
    transparent; if the style has a stroke, the stroke after it.  So at
    most one paint call of a line casts a shadow, and the stroke of a line
    that also has a fill casts none. *)
Theorem draw_shadow_once_per_line `{Collaborators}
    (_setStyles : PointText -> Context2D -> Context2D)
    (this : PointText) (c : Context2D) :
  _content this <> "" ->
  let style := _style this in
  let ambient := shadowColor (_setStyles this c) in
  let per_line :=
    line_calls (hasFill style) (hasStroke style) (leading style) ambient in
  calls (_draw _setStyles this c)
  = (calls (_setStyles this c) ++ flat_map per_line (_lines this))%list /\
  (forall line,
     (length (List.filter casts_shadow (per_line line)) <= 1)%nat) /\
  (hasFill style = true ->
   forall line call,
     In call (per_line line) -> is_stroke call = true ->
     casts_shadow call = false).
Proof.
  intros Hcontent. cbv zeta. repeat apply conj.
  - unfold _draw. rewrite (proj2 (String.eqb_neq _ _) Hcontent).
    rewrite draw_loop_calls. reflexivity.
  - intros line. apply line_casts_one_shadow.
  - intros Hfill line call. rewrite Hfill.
    apply line_stroke_after_fill_unshadowed.
Qed.

(** Two lines with a fill and a stroke under a half transparent shadow. *)
Lemma draw_shadow_once_per_line_witness :
  calls (@_draw sample_collaborators (fun _ c => c) two_lines sample_context)
  = [SetShadowColor "rgba(0,0,0,0.5)";
     FillText "a" 0 0 "rgba(0,0,0,0.5)";
     SetShadowColor "rgba(0,0,0,0)";
     StrokeText "a" 0 0 "rgba(0,0,0,0)";
     Translate 0 12;
     SetShadowColor "rgba(0,0,0,0.5)";
     FillText "b" 0 0 "rgba(0,0,0,0.5)";
     SetShadowColor "rgba(0,0,0,0)";
     StrokeText "b" 0 0 "rgba(0,0,0,0)";
     Translate 0 12].
Proof.
  apply (@draw_shadow_once_per_line sample_collaborators (fun _ c => c)
           two_lines sample_context).
  discriminate.
Defined.

(** Without a fill the stroke is the first paint call of the line and is
    drawn with the ambient shadow. *)
Example stroke_only_line_calls :
  line_calls false true 12 "black" "a"
  = [SetShadowColor "black"; StrokeText "a" 0 0 "black"; Translate 0 12].
Proof. reflexivity. Qed.

(** An item without content is not drawn. *)
Lemma draw_empty_content `{Collaborators}
    (_setStyles : PointText -> Context2D -> Context2D) this c :
  _content this = "" -> _draw _setStyles this c = c.
Proof. intros Hc. unfold _draw. now rewrite Hc. Qed.

(** The lines stack downwards: after the loop the origin of the context has
    moved by the leading once per line. *)
Example draw_advances_origin :
  Matrix.ty (transform (@_draw sample_collaborators (fun _ c => c)
                          two_lines sample_context)) == 24.
Proof. vm_compute. reflexivity. Qed.

(** ** Hit test (C8) *)

(** C8.  [_hitTestSelf] returns a hit of type ['fill'] on the item exactly
    when the options ask for fills, the item has a fill or the options ask
    for unfilled paths too, and the item contains the point; in every other
    case, and so for every query that does not ask for fills, it returns
    nothing. *)
Theorem hitTestSelf_fill `{Collaborators}
    (this : PointText) (point : Point.t) (options : Options) :
  let wanted :=
    fill options = true /\
    (hasFill (_style this) = true \/ hitUnfilledPaths options = true) /\
    _contains this point = true in
  (_hitTestSelf this point options = Some (mkHitResult "fill" this)
   <-> wanted) /\
  (_hitTestSelf this point options = None <-> ~ wanted) /\
  (fill options = false -> _hitTestSelf this point options = None).
Proof.
  cbv zeta. unfold _hitTestSelf.
  destruct (fill options && (hasFill (_style this) || hitUnfilledPaths options)
            && _contains this point) eqn:E.
  - apply andb_true_iff in E as [E Hc].
    apply andb_true_iff in E as [Hf Ho]. apply orb_true_iff in Ho.
    split; [tauto | split].
    + split; [discriminate | tauto].
    + intros Hf'. congruence.
  - assert (Hno : ~ (fill options = true /\
                     (hasFill (_style this) = true \/
                      hitUnfilledPaths options = true) /\
                     _contains this point = true)).
    { intros (Hf & Ho & Hc). apply orb_true_iff in Ho.
      rewrite Hf, Ho, Hc in E. discriminate. }
    split; [split; [discriminate | tauto] | split].
    + tauto.
    + reflexivity.
Qed.

(** ** Anchor accessor (C5, C9) *)

Lemma translate_keeps_linear delta item :
  Matrix.same_linear (_matrix (translate delta item)) (_matrix item).
Proof. repeat split; reflexivity. Qed.

Lemma translate_to_point p item :
  Point.eq
    (Matrix.getTranslation
       (_matrix (translate
                   (Point.subtract p (Matrix.getTranslation (_matrix item)))
                   item)))
    p.
Proof. split; simpl; ring. Qed.

Lemma setPoint_run (h : gmap loc PointText) (this : loc) item p :
  h !! this = Some item ->
  setPoint h this p
  = Some (<[this := translate
                      (Point.subtract p
                         (Matrix.getTranslation (_matrix item)))
                      item]> h).
Proof. intros Hitem. unfold setPoint. now rewrite Hitem. Qed.

(** C5.  [setPoint(p)] on an item whose transform may hold any rotation and
    scale applies the relative translation [p - currentTranslation] and
    nothing else: the linear part of the transform, the content, the lines
    and the style are kept, and no other object changes.  Right after it,
    [getPoint()] is [p]. *)
Theorem setPoint_then_getPoint (h : gmap loc PointText) (this : loc)
    (item : PointText) (p : Point.t) :
  h !! this = Some item ->
  exists h' item' point,
    setPoint h this p = Some h' /\
    h' !! this = Some item' /\
    (forall other, other <> this -> h' !! other = h !! other) /\
    _matrix item'
    = Matrix.translateBy
        (Point.subtract p (Matrix.getTranslation (_matrix item)))
        (_matrix item) /\
    Matrix.same_linear (_matrix item') (_matrix item) /\
    _content item' = _content item /\
    _lines item' = _lines item /\
    _style item' = _style item /\
    getPoint h' this = Some point /\
    Point.eq (LinkedPoint.toPoint point) p.
Proof.
  intros Hitem.
  set (item' := translate
                  (Point.subtract p (Matrix.getTranslation (_matrix item)))
                  item).
  exists (<[this := item']> h), item',
    (LinkedPoint.new (Matrix.tx (_matrix item')) (Matrix.ty (_matrix item'))
       this "setPoint").
  split; [unfold setPoint; rewrite Hitem; reflexivity|].
  split; [apply lookup_insert_eq|].
  split; [intros other Hne; now apply lookup_insert_ne|].
  split; [reflexivity|].
  split; [apply translate_keeps_linear|].
  do 3 (split; [reflexivity|]).
  split; [unfold getPoint; rewrite lookup_insert_eq; reflexivity|].
  apply translate_to_point.
Qed.

(** Moving the turned item from [(3, 4)] to [(10, -5)]. *)
Lemma setPoint_then_getPoint_witness :
  exists h' item' point,
    setPoint sample_heap 7%nat (Point.new 10 (-5)) = Some h' /\
    h' !! 7%nat = Some item' /\
    Matrix.same_linear (_matrix item') (_matrix turned_text) /\
    getPoint h' 7%nat = Some point /\
    Point.eq (LinkedPoint.toPoint point) (Point.new 10 (-5)).
Proof.
  destruct (setPoint_then_getPoint sample_heap 7%nat turned_text
              (Point.new 10 (-5)) ltac:(reflexivity))
    as (h' & item' & point & Hset & Hlook & _ & _ & Hlin & _ & _ & _
        & Hget & Heq).
  exists h', item', point.
  exact (conj Hset (conj Hlook (conj Hlin (conj Hget Heq)))).
Defined.

(** C9 fails as the spec words it: the point read from the item at
    [(3, 4)] is linked to it, and assigning [10] to its [x] moves the
    translation of the item's transform to [(10, 4)]. *)
Lemma linked_point_mutation_moves_item :
  exists point point' h' item',
    getPoint sample_heap 7%nat = Some point /\
    LinkedPoint_setX point 10 sample_heap = Some (point', h') /\
    h' !! 7%nat = Some item' /\
    Matrix.tx (_matrix turned_text) == 3 /\
    Matrix.tx (_matrix item') == 10 /\
    ~ (Matrix.tx (_matrix item') == Matrix.tx (_matrix turned_text)).
Proof.
  do 4 eexists.
  split; [reflexivity|].
  split; [reflexivity|].
  split; [apply lookup_insert_eq|].
  vm_compute. repeat split; discriminate.
Qed.

(** C9, as the code has it.  [getPoint] returns a new point that holds a
    copy of the translation of the item's transform and is linked to the
    item through ['setPoint'].  Assigning a coordinate of that point, [x]
    or [y], calls [setPoint] on the item with the changed point: the
    translation of the item's transform becomes the point's new
    coordinates (the assigned one, and the other as it was read), the
    linear part is kept, and no other object changes. *)
Theorem linked_point_routes_to_setPoint (h : gmap loc PointText)
    (this : loc) (item : PointText) (v : Q) :
  h !! this = Some item ->
  exists point,
    getPoint h this = Some point /\
    LinkedPoint._owner point = this /\
    LinkedPoint._setter point = "setPoint" /\
    Point.eq (LinkedPoint.toPoint point)
             (Matrix.getTranslation (_matrix item)) /\
    (exists point' h' item',
       LinkedPoint_setX point v h = Some (point', h') /\
       LinkedPoint._x point' = v /\
       setPoint h this (Point.new v (LinkedPoint._y point)) = Some h' /\
       h' !! this = Some item' /\
       (forall other, other <> this -> h' !! other = h !! other) /\
       Matrix.tx (_matrix item') == v /\
       Matrix.ty (_matrix item') == Matrix.ty (_matrix item) /\
       Matrix.same_linear (_matrix item') (_matrix item)) /\
    (exists point' h' item',
       LinkedPoint_setY point v h = Some (point', h') /\
       LinkedPoint._y point' = v /\
       setPoint h this (Point.new (LinkedPoint._x point) v) = Some h' /\
       h' !! this = Some item' /\
       (forall other, other <> this -> h' !! other = h !! other) /\
       Matrix.tx (_matrix item') == Matrix.tx (_matrix item) /\
       Matrix.ty (_matrix item') == v /\
       Matrix.same_linear (_matrix item') (_matrix item)).
Proof.
  intros Hitem.
  exists (LinkedPoint.new (Matrix.tx (_matrix item))
            (Matrix.ty (_matrix item)) this "setPoint").
  split; [unfold getPoint; now rewrite Hitem|].
  do 2 (split; [reflexivity|]).
  split; [split; reflexivity|].
  split.
  - set (target := Point.new v (Matrix.ty (_matrix item))).
    set (item' := translate
                    (Point.subtract target
                       (Matrix.getTranslation (_matrix item)))
                    item).
    exists (LinkedPoint.new v (Matrix.ty (_matrix item)) this "setPoint"),
      (<[this := item']> h), item'.
    split.
    { unfold LinkedPoint_setX, call_setter. cbn.
      now rewrite (setPoint_run _ _ _ _ Hitem). }
    split; [reflexivity|].
    split; [apply (setPoint_run _ _ _ _ Hitem)|].
    split; [apply lookup_insert_eq|].
    split; [intros other Hne; now apply lookup_insert_ne|].
    split; [cbn; ring|]. split; [cbn; ring|].
    apply translate_keeps_linear.
  - set (target := Point.new (Matrix.tx (_matrix item)) v).
    set (item' := translate
                    (Point.subtract target
                       (Matrix.getTranslation (_matrix item)))
                    item).
    exists (LinkedPoint.new (Matrix.tx (_matrix item)) v this "setPoint"),
      (<[this := item']> h), item'.
    split.
    { unfold LinkedPoint_setY, call_setter. cbn.
      now rewrite (setPoint_run _ _ _ _ Hitem). }
    split; [reflexivity|].
    split; [apply (setPoint_run _ _ _ _ Hitem)|].
    split; [apply lookup_insert_eq|].
    split; [intros other Hne; now apply lookup_insert_ne|].
    split; [cbn; ring|]. split; [cbn; ring|].
    apply translate_keeps_linear.
Qed.

(** Assigning 10 to the [x], or to the [y], of the point read from the
    turned item. *)
Lemma linked_point_routes_to_setPoint_witness :
  exists point,
    getPoint sample_heap 7%nat = Some point /\
    (exists point' h' item',
       LinkedPoint_setX point 10 sample_heap = Some (point', h') /\
       h' !! 7%nat = Some item' /\
       Matrix.tx (_matrix item') == 10) /\
    (exists point' h' item',
       LinkedPoint_setY point 10 sample_heap = Some (point', h') /\
       h' !! 7%nat = Some item' /\
       Matrix.ty (_matrix item') == 10).
Proof.
  destruct (linked_point_routes_to_setPoint sample_heap 7%nat turned_text 10
              ltac:(reflexivity))
    as (point & Hget & _ & _ & _ & HX & HY).
  destruct HX as (px & hx & ix & Hsetx & _ & _ & Hlookx & _ & Htx & _).
  destruct HY as (py & hy & iy & Hsety & _ & _ & Hlooky & _ & _ & Hty & _).
  exists point. split; [exact Hget|]. split.
  - exists px, hx, ix. exact (conj Hsetx (conj Hlookx Htx)).
  - exists py, hy, iy. exact (conj Hsety (conj Hlooky Hty)).
Defined.

(** The same point read from the item at [(3, 4)]: assigning [10] to its
    [y] moves the translation of the item's transform to [(3, 10)]. *)
Example linked_point_y_mutation_moves_item :
  exists point point' h' item',
    getPoint sample_heap 7%nat = Some point /\
    LinkedPoint_setY point 10 sample_heap = Some (point', h') /\
    h' !! 7%nat = Some item' /\
    Matrix.tx (_matrix item') == 3 /\
    Matrix.ty (_matrix item') == 10.
Proof.
  do 4 eexists.
  split; [reflexivity|].
  split; [reflexivity|].
  split; [apply lookup_insert_eq|].
  vm_compute. split; reflexivity.
Qed.

(** ** The bounds on concrete items *)

(** One line ["AB"], leading 12, left justified: [Rectangle(0, -9, w, 12)]. *)
Example measured_left_single_line :
  let r := @_getMeasuredTextSize sample_collaborators (sample_text "left" 0) in
  Rectangle.x r == 0 /\ Rectangle.y r == - (9) /\
  Rectangle.width r == 10 /\ Rectangle.height r == 12.
Proof. vm_compute. repeat split; discriminate. Qed.

(** The same, centred: [x = -w/2]. *)
Example measured_center_single_line :
  Rectangle.x (@_getMeasuredTextSize sample_collaborators
                 (sample_text "center" 0)) == - (5).
Proof. vm_compute. reflexivity. Qed.

(** Three lines, leading 12: the height is 36. *)
Example measured_three_lines_height :
  Rectangle.height
    (@_getMeasuredTextSize sample_collaborators
       (mkPointText Matrix.identity "a" ["a"; "bb"; "ccc"]
          (sample_style "left" 0))) == 36.
Proof. vm_compute. reflexivity. Qed.

(** No line: the box is empty and starts at the anchor. *)
Example measured_no_line :
  let r := @_getMeasuredTextSize sample_collaborators empty_text in
  Rectangle.y r == 0 /\ Rectangle.height r == 0.
Proof. vm_compute. split; reflexivity. Qed.

(** [_getBounds] without a matrix and without [drawnTextBounds] is the
    metrics estimate and leaves the document alone. *)
Lemma getBounds_measured `{Collaborators} `{Browser}
    (transformBounds : Matrix.t -> Rectangle.t -> Rectangle.t)
    this options doc :
  drawnTextBounds options = false ->
  _getBounds transformBounds this None options doc
  = (Normal (_getMeasuredTextSize this), doc).
Proof. intros Hd. unfold _getBounds, bind, ret. now rewrite Hd. Qed.

(** With [drawnTextBounds] a failure of the measurement reaches the caller
    of [_getBounds]. *)
Lemma getBounds_drawn_failure `{Collaborators} `{Browser}
    (transformBounds : Matrix.t -> Rectangle.t -> Rectangle.t)
    this matrix options doc :
  drawnTextBounds options = true ->
  well_formed doc ->
  measurement_raises this doc ->
  exists e,
    fst (_getBounds transformBounds this matrix options doc) = Throw e.
Proof.
  intros Hd Hwf Hraise.
  destruct (drawn_run_failure this doc Hwf
              (raises_excludes_measures _ _ Hraise)) as [e He].
  exists e. unfold _getBounds, bind. now rewrite Hd, He.
Qed.

(** * Further properties of the renderer *)

Lemma num_succ n : num (Datatypes.S n) == num n + 1.
Proof.
  unfold num. rewrite Nat2Z.inj_succ, <- Z.add_1_r, inject_Z_plus.
  reflexivity.
Qed.


Lemma paint_line_font hf hs ld ambient line c :
  font (paint_line hf hs ld ambient line c) = font c /\
  textAlign (paint_line hf hs ld ambient line c) = textAlign c.
Proof. destruct hf, hs; split; reflexivity. Qed.

Lemma paint_line_shadow hf hs ld ambient line c :
  shadowColor (paint_line hf hs ld ambient line c)
  = if hf then transparent else ambient.
Proof. destruct hf, hs; reflexivity. Qed.


Lemma paint_lines_font hf hs ld ambient (lines : list string) c :
  font (fold_left (fun c line => paint_line hf hs ld ambient line c) lines c)
  = font c /\
  textAlign (fold_left (fun c line => paint_line hf hs ld ambient line c)
                       lines c)
  = textAlign c.
Proof.
  revert c. induction lines as [|line lines IH]; intros c.
  - split; reflexivity.
  - cbn [fold_left]. destruct (IH (paint_line hf hs ld ambient line c))
      as [-> ->]. apply paint_line_font.
Qed.

Lemma paint_lines_shadow hf hs ld ambient (lines : list string) c :
  shadowColor (fold_left (fun c line => paint_line hf hs ld ambient line c)
                         lines c)
  = match lines with
    | [] => shadowColor c
    | _ :: _ => if hf then transparent else ambient
    end.
Proof.
  revert c. induction lines as [|line lines IH]; intros c.
  - reflexivity.
  - cbn [fold_left]. rewrite IH. destruct lines; [|reflexivity].
    apply paint_line_shadow.
Qed.


Lemma draw_loop_is_fold `{Collaborators}
    (_setStyles : PointText -> Context2D -> Context2D) this c :
  _content this <> "" ->
  _draw _setStyles this c
  = fold_left
      (fun c' line =>
         paint_line (hasFill (_style this)) (hasStroke (_style this))
                    (leading (_style this))
                    (shadowColor (_setStyles this c)) line c')
      (_lines this)
      (ctx.set_textAlign (justification (_style this))
         (ctx.set_font (getFontStyle (_style this)) (_setStyles this c))).
Proof.
  intros Hcontent. unfold _draw.
  rewrite (proj2 (String.eqb_neq _ _) Hcontent). cbv zeta.
  exact (for_loop_lines
           (paint_line (hasFill (_style this)) (hasStroke (_style this))
                       (leading (_style this))
                       (shadowColor (_setStyles this c)))
           (_lines this) _).
Qed.



(** X2.  After drawing an item with content the context's font is the
    style's font string and its alignment the style's justification; its
    shadow colour is left transparent when the style has a fill and there is
    at least one line, and is the ambient one otherwise: the ambient shadow
    is not put back after the last line. *)
Theorem draw_final_context `{Collaborators}
    (_setStyles : PointText -> Context2D -> Context2D)
    (this : PointText) (c : Context2D) :
  _content this <> "" ->
  let after := _draw _setStyles this c in
  font after = getFontStyle (_style this) /\
  textAlign after = justification (_style this) /\
  shadowColor after
  = match _lines this with
    | [] => shadowColor (_setStyles this c)
    | _ :: _ =>
        if hasFill (_style this) then transparent
        else shadowColor (_setStyles this c)
    end.
Proof.
  intros Hcontent. cbv zeta. rewrite (draw_loop_is_fold _ _ _ Hcontent).
  split; [|split].
  - now rewrite (proj1 (paint_lines_font _ _ _ _ _ _)).
  - now rewrite (proj2 (paint_lines_font _ _ _ _ _ _)).
  - now rewrite paint_lines_shadow.
Qed.

(** Under a half transparent shadow, two filled lines leave the shadow
    transparent. *)
Lemma draw_final_context_witness :
  shadowColor (@_draw sample_collaborators (fun _ c => c)
                 two_lines sample_context) = "rgba(0,0,0,0)".
Proof.
  apply (@draw_final_context sample_collaborators (fun _ c => c)
           two_lines sample_context).
  discriminate.
Defined.

Lemma filled_texts_lines hf hs ld ambient (lines : list string) :
  filled_texts (flat_map (line_calls hf hs ld ambient) lines)
  = if hf then lines else [].
Proof.
  unfold filled_texts. induction lines as [|line lines IH].
  - now destruct hf.
  - cbn [flat_map]. rewrite flat_map_app, IH.
    destruct hf, hs; reflexivity.
Qed.

Lemma stroked_texts_lines hf hs ld ambient (lines : list string) :
  stroked_texts (flat_map (line_calls hf hs ld ambient) lines)
  = if hs then lines else [].
Proof.
  unfold stroked_texts. induction lines as [|line lines IH].
  - now destruct hs.
  - cbn [flat_map]. rewrite flat_map_app, IH.
    destruct hf, hs; reflexivity.
Qed.

Lemma origin_moves_lines hf hs ld ambient (lines : list string) :
  origin_moves (flat_map (line_calls hf hs ld ambient) lines)
  = map (fun _ => (0, ld)) lines.
Proof.
  unfold origin_moves. induction lines as [|line lines IH].
  - reflexivity.
  - cbn [flat_map map]. rewrite flat_map_app, IH.
    destruct hf, hs; reflexivity.
Qed.

Lemma line_calls_at_origin hf hs ld ambient (lines : list string) :
  Forall paints_at_origin (flat_map (line_calls hf hs ld ambient) lines).
Proof.
  induction lines as [|line lines IH]; [constructor|].
  cbn [flat_map]. apply Forall_app. split; [|exact IH].
  unfold line_calls.
  destruct hf, hs; repeat constructor.
Qed.

(** X3.  Drawing an item with content adds calls to the context in which
    every line is filled exactly once, in order, when the style has a fill
    (and no text is filled otherwise), every line is stroked exactly once,
    in order, when the style has a stroke, every paint call draws at the
    local origin, and the origin is moved by [(0, leading)] once per line,
    whether or not anything is painted. *)
Theorem draw_paints_each_line_once `{Collaborators}
    (_setStyles : PointText -> Context2D -> Context2D)
    (this : PointText) (c : Context2D) :
  _content this <> "" ->
  exists added,
    calls (_draw _setStyles this c)
    = (calls (_setStyles this c) ++ added)%list /\
    filled_texts added
    = (if hasFill (_style this) then _lines this else []) /\
    stroked_texts added
    = (if hasStroke (_style this) then _lines this else []) /\
    origin_moves added
    = map (fun _ => (0, leading (_style this))) (_lines this) /\
    Forall paints_at_origin added.
Proof.
  intros Hcontent.
  exists (flat_map (line_calls (hasFill (_style this))
                      (hasStroke (_style this)) (leading (_style this))
                      (shadowColor (_setStyles this c)))
            (_lines this)).
  split.
  - unfold _draw. rewrite (proj2 (String.eqb_neq _ _) Hcontent).
    cbv zeta. rewrite draw_loop_calls. reflexivity.
  - split; [apply filled_texts_lines|].
    split; [apply stroked_texts_lines|].
    split; [apply origin_moves_lines | apply line_calls_at_origin].
Qed.

(** The two lines are filled and stroked in order. *)
Lemma draw_paints_each_line_once_witness :
  exists added,
    calls (@_draw sample_collaborators (fun _ c => c)
             two_lines sample_context) = added /\
    filled_texts added = ["a"; "b"] /\
    stroked_texts added = ["a"; "b"].
Proof.
  destruct (@draw_paints_each_line_once sample_collaborators (fun _ c => c)
              two_lines sample_context ltac:(discriminate))
    as (added & Hcalls & Hfill & Hstroke & _).
  exists added. exact (conj Hcalls (conj Hfill Hstroke)).
Defined.

(** * Further properties of the markup *)

(** A counting loop from [i] with [n] iterations of fuel and the bound
    [i + n] runs its body on [i], ..., [i + n - 1] in order. *)
Lemma for_loop_seq {S : Type} (body : nat -> S -> S) (n i : nat) (s : S) :
  for_loop n i (i + n) body s
  = fold_left (fun s k => body k s) (seq i n) s.
Proof.
  revert i s. induction n as [|n IH]; intros i s.
  - reflexivity.
  - cbn [for_loop seq fold_left].
    replace (i <? i + Datatypes.S n)%nat with true
      by (symmetry; apply Nat.ltb_lt; lia).
    replace (i + Datatypes.S n)%nat with (Datatypes.S i + n)%nat by lia.
    apply IH.
Qed.

Lemma fold_append {A B : Type} (f : A -> B) (l : list A) (acc : list B) :
  fold_left (fun node k => (node ++ [f k])%list) l acc
  = (acc ++ map f l)%list.
Proof.
  revert acc. induction l as [|k l IH]; intros acc; cbn [fold_left map].
  - now rewrite app_nil_r.
  - rewrite IH, <- app_assoc. reflexivity.
Qed.

Lemma map_at_index (rest done : list string) :
  map (at_index (done ++ rest)) (seq (length done) (length rest)) = rest.
Proof.
  revert done. induction rest as [|line rest IH]; intros done.
  - reflexivity.
  - cbn [length seq map]. f_equal.
    + unfold at_index. rewrite app_nth2 by lia. now rewrite Nat.sub_diag.
    + specialize (IH (done ++ [line])%list).
      rewrite <- app_assoc, length_app in IH. cbn [length app] in IH.
      rewrite Nat.add_1_r in IH. exact IH.
Qed.

Lemma map_dy_after_first (ld : Q) (n i : nat) :
  map (fun k => if (k =? 0)%nat then DyZero else DyPx ld)
      (seq (Datatypes.S i) n)
  = repeat (DyPx ld) n.
Proof.
  revert i. induction n as [|n IH]; intros i; [reflexivity|].
  cbn [seq map repeat]. now rewrite IH.
Qed.

Lemma markup_tspans_map this :
  tspans (markup this)
  = map (fun k =>
           mkTSpan "0"
             (if (k =? 0)%nat then DyZero else DyPx (leading (_style this)))
             (at_index (_lines this) k))
        (seq 0 (length (_lines this))).
Proof.
  unfold markup. cbn [tspans].
  pose proof (for_loop_seq
                (add_tspan (_lines this) (leading (_style this)))
                (length (_lines this)) 0 []) as Eloop.
  cbn [Nat.add] in Eloop. rewrite Eloop.
  unfold add_tspan. now rewrite fold_append.
Qed.

(** X4.  The markup that is measured holds one [tspan] per line, in order:
    their texts are the lines, each has [x = '0'], the first has no
    vertical offset and every later one is offset by the leading.  It
    preserves white space and does not depend on the stroke, the fill or
    the justification. *)
Theorem markup_one_tspan_per_line (this : PointText) :
  let spans := tspans (markup this) in
  map textContent spans = _lines this /\
  map tspan_x spans = repeat "0" (length (_lines this)) /\
  map tspan_dy spans
  = match _lines this with
    | [] => []
    | _ :: rest => DyZero :: repeat (DyPx (leading (_style this)))
                                    (length rest)
    end /\
  xml_space (markup this) = "preserve" /\
  forall style',
    leading style' = leading (_style this) ->
    markup (setStyle style' this) = markup this.
Proof.
  cbv zeta. rewrite markup_tspans_map.
  rewrite !map_map. cbn [textContent tspan_x tspan_dy].
  split; [exact (map_at_index (_lines this) [])|].
  split.
  { generalize (length (_lines this)), 0%nat.
    induction n as [|n IH]; intros i; [reflexivity|].
    cbn [seq map repeat]. now rewrite IH. }
  split.
  { destruct (_lines this) as [|line rest]; [reflexivity|].
    cbn [length seq map Nat.eqb]. now rewrite map_dy_after_first. }
  split; [reflexivity|].
  intros style' Hld. unfold markup. cbn [setStyle _lines _style].
  now rewrite Hld.
Qed.

(** * Further properties of the exact bounds estimator *)

(** Either the measurement succeeds or one of its steps raises. *)
Lemma measures_or_raises `{Browser} this doc :
  (exists bbox, measures this doc bbox) \/ measurement_raises this doc.
Proof.
  unfold measures, measurement_raises. cbv zeta.
  destruct (span_appendChild _ _) as [e1|]; [right; left; discriminate|].
  destruct (body_refuses _ _) as [e2|]; [right; right; left; discriminate|].
  destruct (getBBox _ _) as [bbox|e3].
  - left. exists bbox. repeat split.
  - right. right. right. now exists e3.
Qed.

(** The document after the estimator ran, whatever happened. *)
Lemma drawn_run_document `{Collaborators} `{Browser} this doc :
  well_formed doc ->
  snd (_getDrawnTextSize this doc)
  = mkDocument (body doc) (Datatypes.S (next_handle doc)).
Proof.
  intros Hwf. destruct (measures_or_raises this doc) as [[bbox Hm] | Hraise].
  - rewrite (drawn_run_success _ _ _ Hm). cbn [snd].
    now rewrite (remove_handle_fresh _ _ Hwf).
  - destruct (drawn_run_failure this doc Hwf
                (raises_excludes_measures _ _ Hraise)) as [e He].
    now rewrite He.
Qed.

(** X5.  In a document whose elements were all created before: when the
    markup cannot be put into its host, or the host cannot be put into the
    body, the estimator completes with [NotFoundError], raised by
    [removeChild] in the [finally] block, and the exception of the failed
    step is lost; when only [getBBox] raises, its exception is the one the
    caller sees. *)
Theorem drawn_exception_seen `{Collaborators} `{Browser}
    (this : PointText) (doc : Document) :
  well_formed doc ->
  let element := host_span (next_handle doc) this in
  let svg := markup this in
  (span_appendChild element svg <> None ->
   fst (_getDrawnTextSize this doc) = Throw NotFoundError) /\
  (span_appendChild element svg = None ->
   body_refuses element svg <> None ->
   fst (_getDrawnTextSize this doc) = Throw NotFoundError) /\
  (forall e,
     span_appendChild element svg = None ->
     body_refuses element svg = None ->
     getBBox element svg = Throw e ->
     fst (_getDrawnTextSize this doc) = Throw e).
Proof.
  intros Hwf. cbv zeta.
  unfold _getDrawnTextSize, bind, try_finally, createElement, raise_if,
    body_appendChild, body_removeChild, lift, ret, throw.
  cbn [fst snd body next_handle].
  split; [|split].
  - intros Hsvg.
    destruct (span_appendChild _ _) as [e1|]; [|contradiction].
    cbn. now rewrite (fresh_is_no_child _ _ Hwf).
  - intros Hsvg Hbody. rewrite Hsvg.
    destruct (body_refuses _ _) as [e2|]; [|contradiction].
    cbn. now rewrite (fresh_is_no_child _ _ Hwf).
  - intros e Hsvg Hbody Hbbox. rewrite Hsvg, Hbody, Hbbox. cbn.
    now rewrite appended_is_child.
Qed.

(** The exception of [appendChild] is replaced by [NotFoundError]. *)
Lemma drawn_exception_seen_witness :
  fst (@_getDrawnTextSize sample_collaborators detached_browser
         (sample_text "left" 0) sample_document) = Throw NotFoundError.
Proof.
  refine (proj1 (@drawn_exception_seen sample_collaborators detached_browser
                   (sample_text "left" 0) sample_document
                   sample_document_well_formed) _).
  intros Hnone. vm_compute in Hnone. discriminate Hnone.
Defined.

(** X6.  The estimator creates exactly one element per call and keeps the
    document well formed, on success and on failure: every child of the
    body is still an element created before, and the next unused handle
    has moved by one. *)
Theorem drawn_keeps_document_well_formed `{Collaborators} `{Browser}
    (this : PointText) (doc : Document) :
  well_formed doc ->
  let doc' := snd (_getDrawnTextSize this doc) in
  well_formed doc' /\
  next_handle doc' = Datatypes.S (next_handle doc) /\
  body doc' = body doc.
Proof.
  intros Hwf. cbv zeta. rewrite (drawn_run_document _ _ Hwf).
  cbn [body next_handle]. split; [|split; reflexivity].
  unfold well_formed in *. cbn [body next_handle].
  eapply List.Forall_impl; [|exact Hwf]. cbv beta. intros e He. lia.
Qed.

(** After a failed measurement the sample document is still well formed. *)
Lemma drawn_keeps_document_well_formed_witness :
  well_formed (snd (@_getDrawnTextSize sample_collaborators failing_browser
                      (sample_text "left" 0) sample_document)).
Proof.
  apply (@drawn_keeps_document_well_formed sample_collaborators
           failing_browser (sample_text "left" 0) sample_document
           sample_document_well_formed).
Defined.

(** Two measurements in a row: the second one runs in the document the
    first one left. *)
Lemma drawn_twice_body `{Collaborators} `{Browser} this that doc :
  well_formed doc ->
  body (snd (_getDrawnTextSize that (snd (_getDrawnTextSize this doc))))
  = body doc.
Proof.
  intros Hwf.
  assert (Hwf' : well_formed (snd (_getDrawnTextSize this doc))).
  { rewrite (drawn_run_document _ _ Hwf). unfold well_formed in *.
    cbn [body next_handle]. eapply List.Forall_impl; [|exact Hwf].
    cbv beta. intros e He. lia. }
  rewrite (drawn_run_document _ _ Hwf'), (drawn_run_document _ _ Hwf).
  reflexivity.
Qed.

(** The horizontal correction is the same in both estimators. *)
Lemma enlarged_x_shift `{Collaborators} this bbox :
  Rectangle.x (enlarged this bbox)
  == SVGRect.x bbox - strokeWidth (_style this) / 2
     + Rectangle.x (_getMeasuredTextSize this).
Proof.
  unfold enlarged, _getMeasuredTextSize. cbn [Rectangle.x].
  destruct (negb (justification (_style this) =? "left")%string); ring.
Qed.

(** X7.  For every justification string, known or not, the exact bounds
    start at the left edge of the padded raw box moved by the [x] of the
    metrics bounds: the two estimators apply the same horizontal
    correction. *)
Theorem drawn_and_measured_share_the_shift `{Collaborators} `{Browser}
    (this : PointText) (doc : Document) (bbox : SVGRect.t) :
  measures this doc bbox ->
  exists r,
    fst (_getDrawnTextSize this doc) = Normal r /\
    Rectangle.x r
    == SVGRect.x bbox - strokeWidth (_style this) / 2
       + Rectangle.x (_getMeasuredTextSize this).
Proof.
  intros Hm. exists (enlarged this bbox).
  rewrite (drawn_run_success _ _ _ Hm). cbn [fst].
  split; [reflexivity | apply enlarged_x_shift].
Qed.

(** A right justified line on a raw box at 0 with stroke width 2. *)
Lemma drawn_and_measured_share_the_shift_witness :
  exists r,
    fst (@_getDrawnTextSize sample_collaborators
           (sample_browser (Normal sample_bbox))
           (sample_text "right" 2) sample_document) = Normal r /\
    Rectangle.x r
    == 0 - 2 / 2
       + Rectangle.x (@_getMeasuredTextSize sample_collaborators
                        (sample_text "right" 2)).
Proof.
  exact (@drawn_and_measured_share_the_shift sample_collaborators
           (sample_browser (Normal sample_bbox))
           (sample_text "right" 2) sample_document sample_bbox
           (sample_measures "right" 2)).
Defined.

(** X8.  When the measurement succeeds, the exact bounds start at or above
    the top of the raw box grown by half the stroke width, are at least
    as wide and at least as high as the raw box grown by the stroke width,
    and are at least as high as the metrics bounds.  This holds for every
    stroke width. *)
Theorem drawn_covers_padded_box `{Collaborators} `{Browser}
    (this : PointText) (doc : Document) (bbox : SVGRect.t) :
  measures this doc bbox ->
  let half := strokeWidth (_style this) / 2 in
  exists r,
    fst (_getDrawnTextSize this doc) = Normal r /\
    Rectangle.y r <= SVGRect.y bbox - half /\
    SVGRect.width bbox + 2 * half <= Rectangle.width r /\
    SVGRect.height bbox + 2 * half <= Rectangle.height r /\
    Rectangle.height (_getMeasuredTextSize this) <= Rectangle.height r.
Proof.
  intros Hm. cbv zeta. exists (enlarged this bbox).
  rewrite (drawn_run_success _ _ _ Hm). cbn [fst].
  unfold enlarged, _getMeasuredTextSize.
  cbn [Rectangle.y Rectangle.width Rectangle.height].
  pose proof (Math_max_ge_l
                (SVGRect.height bbox + strokeWidth (_style this) / 2 * 2)
                (num (length (_lines this)) * leading (_style this))) as Hl.
  pose proof (Math_max_ge_r
                (SVGRect.height bbox + strokeWidth (_style this) / 2 * 2)
                (num (length (_lines this)) * leading (_style this))) as Hr.
  split; [reflexivity|]. split; [lra|]. split; [lra|]. split; [lra|].
  exact Hr.
Qed.

(** The sample box, 10 high, under one line of leading 12. *)
Lemma drawn_covers_padded_box_witness :
  exists r,
    fst (@_getDrawnTextSize sample_collaborators
           (sample_browser (Normal sample_bbox))
           (sample_text "left" 2) sample_document) = Normal r /\
    Rectangle.height (@_getMeasuredTextSize sample_collaborators
                        (sample_text "left" 2))
    <= Rectangle.height r.
Proof.
  destruct (@drawn_covers_padded_box sample_collaborators
              (sample_browser (Normal sample_bbox))
              (sample_text "left" 2) sample_document sample_bbox
              (sample_measures "left" 2))
    as (r & Hr & _ & _ & _ & Hh).
  exists r. exact (conj Hr Hh).
Defined.

(** X9.  Changing the justification changes neither what is measured nor
    the vertical position, the width or the height of the exact bounds:
    only [x] depends on it. *)
Theorem justification_moves_only_x `{Collaborators} `{Browser}
    (this : PointText) (doc : Document) (bbox : SVGRect.t) (j : string) :
  measures this doc bbox ->
  exists r r',
    fst (_getDrawnTextSize this doc) = Normal r /\
    fst (_getDrawnTextSize (with_justification j this) doc) = Normal r' /\
    Rectangle.y r' = Rectangle.y r /\
    Rectangle.width r' = Rectangle.width r /\
    Rectangle.height r' = Rectangle.height r.
Proof.
  intros Hm.
  assert (Hm' : measures (with_justification j this) doc bbox) by exact Hm.
  exists (enlarged this bbox), (enlarged (with_justification j this) bbox).
  rewrite (drawn_run_success _ _ _ Hm), (drawn_run_success _ _ _ Hm').
  repeat split.
Qed.

(** The sample line, left justified and then centred. *)
Lemma justification_moves_only_x_witness :
  exists r r',
    fst (@_getDrawnTextSize sample_collaborators
           (sample_browser (Normal sample_bbox))
           (sample_text "left" 2) sample_document) = Normal r /\
    fst (@_getDrawnTextSize sample_collaborators
           (sample_browser (Normal sample_bbox))
           (with_justification "center" (sample_text "left" 2))
           sample_document) = Normal r' /\
    Rectangle.width r' = Rectangle.width r.
Proof.
  destruct (@justification_moves_only_x sample_collaborators
              (sample_browser (Normal sample_bbox))
              (sample_text "left" 2) sample_document sample_bbox "center"
              (sample_measures "left" 2))
    as (r & r' & Hr & Hr' & _ & Hw & _).
  exists r, r'. exact (conj Hr (conj Hr' Hw)).
Defined.

(** * Further properties of the metrics bounds *)

(** X10.  When the paragraph width and the leading are not negative, the
    metrics bounds contain the anchor (the local origin) for every
    justification string and every number of lines: [x <= 0 <= x + width]
    and [y <= 0 <= y + height]. *)
Theorem measured_contains_anchor `{Collaborators} (this : PointText) :
  0 <= getTextWidth (getFontStyle (_style this)) (_lines this) ->
  0 <= leading (_style this) ->
  let r := _getMeasuredTextSize this in
  Rectangle.x r <= 0 /\ 0 <= Rectangle.x r + Rectangle.width r /\
  Rectangle.y r <= 0 /\ 0 <= Rectangle.y r + Rectangle.height r.
Proof.
  intros Hw Hl. cbv zeta. unfold _getMeasuredTextSize.
  cbn [Rectangle.x Rectangle.y Rectangle.width Rectangle.height].
  set (w := getTextWidth (getFontStyle (_style this)) (_lines this)) in *.
  set (ld := leading (_style this)) in *.
  clearbody w ld.
  assert (Hx : forall two_or_one : Q,
             two_or_one == 2 \/ two_or_one == 1 ->
             0 - w / two_or_one <= 0 /\ 0 <= 0 - w / two_or_one + w).
  { assert (E2 : w / 2 == w * (1 # 2)) by field.
    assert (E1 : w / 1 == w) by field.
    intros k [Hk | Hk]; rewrite Hk; [rewrite E2 | rewrite E1]; split; lra. }
  split; [|split; [|split]].
  - destruct (negb _); [|lra].
    destruct (justification (_style this) =? "center")%string;
      apply Hx; [left | right]; reflexivity.
  - destruct (negb _); [|lra].
    destruct (justification (_style this) =? "center")%string;
      apply Hx; [left | right]; reflexivity.
  - clear Hx. destruct (length (_lines this) =? 0)%nat.
    + apply Qle_refl.
    + lra.
  - clear Hx. destruct (_lines this) as [|line rest].
    + cbn [length Nat.eqb]. change (num 0) with 0. lra.
    + cbn [length Nat.eqb].
      pose proof (num_succ (length rest)) as Hs.
      pose proof (num_nonneg (length rest)) as Hn. nra.
Qed.

(** The sample line, right justified. *)
Lemma measured_contains_anchor_witness :
  0 <= Rectangle.x (@_getMeasuredTextSize sample_collaborators
                      (sample_text "right" 0))
       + Rectangle.width (@_getMeasuredTextSize sample_collaborators
                            (sample_text "right" 0)).
Proof.
  refine (proj1 (proj2 (@measured_contains_anchor sample_collaborators
                          (sample_text "right" 0) _ _))).
  - vm_compute. discriminate.
  - vm_compute. discriminate.
Defined.

(** * Further properties of [_getBounds] *)

(** X12.  With [drawnTextBounds], in a document whose elements were all
    created before, [_getBounds] returns the exact bounds passed through
    the matrix when the measurement succeeds, and completes with an
    exception, the matrix not being applied, when a step of the measurement
    raises; in both cases the children of the body are as before. *)
Theorem getBounds_drawn_path `{Collaborators} `{Browser}
    (transformBounds : Matrix.t -> Rectangle.t -> Rectangle.t)
    (this : PointText) (matrix : option Matrix.t) (options : Options)
    (doc : Document) :
  drawnTextBounds options = true ->
  well_formed doc ->
  let result := _getBounds transformBounds this matrix options doc in
  (forall bbox, measures this doc bbox ->
     fst result
     = Normal (transformed transformBounds matrix (enlarged this bbox))) /\
  (measurement_raises this doc -> exists e, fst result = Throw e) /\
  body (snd result) = body doc.
Proof.
  intros Hd Hwf. cbv zeta. unfold _getBounds, bind, ret, transformed.
  rewrite Hd. split; [|split].
  - intros bbox Hm. rewrite (drawn_run_success _ _ _ Hm).
    now destruct matrix.
  - intros Hraise.
    destruct (drawn_run_failure this doc Hwf
                (raises_excludes_measures _ _ Hraise)) as [e He].
    rewrite He. now exists e.
  - pose proof (drawn_run_document this doc Hwf) as Hdoc.
    destruct (_getDrawnTextSize this doc) as [[r|e] doc'];
      cbn [snd] in Hdoc |- *; now rewrite Hdoc.
Qed.

(** The exact bounds of the sample line moved by [(5, 7)]. *)
Lemma getBounds_drawn_path_witness :
  body (snd (@_getBounds sample_collaborators
               (sample_browser (Normal sample_bbox)) sample_transformBounds
               (sample_text "left" 0) (Some (Matrix.new 1 0 0 1 5 7))
               (mkOptions true true false false) sample_document))
  = [0; 1]%nat.
Proof.
  refine (proj2 (proj2 (@getBounds_drawn_path sample_collaborators
                          (sample_browser (Normal sample_bbox))
                          sample_transformBounds (sample_text "left" 0)
                          (Some (Matrix.new 1 0 0 1 5 7))
                          (mkOptions true true false false) sample_document
                          _ sample_document_well_formed))).
  reflexivity.
Defined.

(** * Further properties of the anchor accessor *)

(** X13.  Writing back the point that [getPoint] just returned leaves the
    transform of the item where it is: same linear part, same translation;
    content, lines and style are kept. *)
Theorem setPoint_of_getPoint (h : gmap loc PointText) (this : loc)
    (item : PointText) :
  h !! this = Some item ->
  exists point h' item',
    getPoint h this = Some point /\
    setPoint h this (LinkedPoint.toPoint point) = Some h' /\
    h' !! this = Some item' /\
    Matrix.same_linear (_matrix item') (_matrix item) /\
    Point.eq (Matrix.getTranslation (_matrix item'))
             (Matrix.getTranslation (_matrix item)) /\
    _content item' = _content item /\
    _lines item' = _lines item /\
    _style item' = _style item.
Proof.
  intros Hitem.
  set (point := LinkedPoint.new (Matrix.tx (_matrix item))
                  (Matrix.ty (_matrix item)) this "setPoint").
  eexists point, _, _.
  split; [unfold getPoint; now rewrite Hitem|].
  split; [apply (setPoint_run _ _ _ _ Hitem)|].
  split; [apply lookup_insert_eq|].
  split; [apply translate_keeps_linear|].
  split; [apply translate_to_point|].
  repeat split.
Qed.

(** The turned item stays at [(3, 4)]. *)
Lemma setPoint_of_getPoint_witness :
  exists point h' item',
    getPoint sample_heap 7%nat = Some point /\
    setPoint sample_heap 7%nat (LinkedPoint.toPoint point) = Some h' /\
    h' !! 7%nat = Some item' /\
    Point.eq (Matrix.getTranslation (_matrix item')) (Point.new 3 4).
Proof.
  destruct (setPoint_of_getPoint sample_heap 7%nat turned_text
              ltac:(reflexivity))
    as (point & h' & item' & Hget & Hset & Hlook & _ & Heq & _).
  exists point, h', item'. exact (conj Hget (conj Hset (conj Hlook Heq))).
Defined.

(** X14.  Two [setPoint] calls in a row: the item ends at the second
    point, with the linear part it had before the first call; the first
    point leaves no trace. *)
Theorem setPoint_last_wins (h : gmap loc PointText) (this : loc)
    (item : PointText) (p q : Point.t) :
  h !! this = Some item ->
  exists h1 h2 item2,
    setPoint h this p = Some h1 /\
    setPoint h1 this q = Some h2 /\
    h2 !! this = Some item2 /\
    Point.eq (Matrix.getTranslation (_matrix item2)) q /\
    Matrix.same_linear (_matrix item2) (_matrix item) /\
    (forall other, other <> this -> h2 !! other = h !! other).
Proof.
  intros Hitem.
  set (item1 := translate
                  (Point.subtract p (Matrix.getTranslation (_matrix item)))
                  item).
  assert (H1 : (<[this := item1]> h) !! this = Some item1)
    by apply lookup_insert_eq.
  eexists _, _, _.
  split; [apply (setPoint_run _ _ _ _ Hitem)|].
  split; [apply (setPoint_run _ _ _ _ H1)|].
  split; [apply lookup_insert_eq|].
  split; [apply translate_to_point|].
  split; [repeat split; reflexivity|].
  intros other Hne. now rewrite !lookup_insert_ne.
Qed.

(** The turned item moved to [(10, -5)] and then to [(1, 2)]. *)
Lemma setPoint_last_wins_witness :
  exists h1 h2 item2,
    setPoint sample_heap 7%nat (Point.new 10 (-5)) = Some h1 /\
    setPoint h1 7%nat (Point.new 1 2) = Some h2 /\
    h2 !! 7%nat = Some item2 /\
    Point.eq (Matrix.getTranslation (_matrix item2)) (Point.new 1 2).
Proof.
  destruct (setPoint_last_wins sample_heap 7%nat turned_text
              (Point.new 10 (-5)) (Point.new 1 2) ltac:(reflexivity))
    as (h1 & h2 & item2 & Hs1 & Hs2 & Hlook & Heq & _).
  exists h1, h2, item2. exact (conj Hs1 (conj Hs2 (conj Hlook Heq))).
Defined.
